(** * Todo API over BigQuery: a shallow embedding of [main.py],
      [app/schemas.py] and [app/database.py], and the properties of its
      five request handlers.

    The handlers are modelled as state-passing functions over a model of
    the remote table.  Query texts are built by string concatenation
    exactly as the f-strings of [main.py] build them; the datastore model
    receives the text together with the bound parameters and interprets
    the five statement forms the handlers emit. *)

From Stdlib Require Import ZArith List String Ascii Bool Lia.
From Stdlib Require Import Sorting.Sorted Sorting.Permutation.
Import ListNotations.
Open Scope string_scope.
Open Scope list_scope.

(* ===================================================================== *)
(** ** Python values, exceptions and results                             *)
(* ===================================================================== *)

(** An instant, as a count of microseconds since the epoch in UTC: a
    reading of the clock, the value of a TIMESTAMP. *)
Definition datetime := Z.
Bind Scope Z_scope with datetime.

(** A Python [datetime] object: an instant, carried either without
    [tzinfo] (naive, read as UTC) or with [tzinfo=timezone.utc] (aware).
    Two objects that differ in this are different values, also when they
    denote the same instant. *)
Record pydatetime := {
  instant : datetime;
  aware : bool
}.

Definition naive (t : datetime) : pydatetime := {| instant := t; aware := false |}.
Definition utc (t : datetime) : pydatetime := {| instant := t; aware := true |}.

(** [datetime.now(timezone.utc)] when the clock reads [now]. *)
Definition datetime_now_utc (now : datetime) : pydatetime := utc now.

(** [d.replace(tzinfo=None)]. *)
Definition replace_tzinfo_None (d : pydatetime) : pydatetime := naive (instant d).

(** [schemas.py]: [class TaskStatus(str, Enum)]. *)
Inductive TaskStatus := PENDING | IN_PROGRESS | COMPLETED.

(** The Python objects that flow through the handlers. *)
Inductive pyval :=
| VNone
| VStr (s : string)
| VEnum (s : TaskStatus)
| VDatetime (t : pydatetime).

(** The exception classes the handlers raise or catch.  [NotFound] and
    [BadRequest] are subclasses of [GoogleAPICallError]; the constructor
    [GoogleAPICallError] stands for every other member of that class.
    [RequestValidationError] is what the framework raises for a body that
    the request schema rejects (answered with 422 before the handler
    runs). *)
Inductive exn :=
| HTTPException (status_code : nat) (detail : string)
| NotFound
| BadRequest
| GoogleAPICallError
| ValidationError
| KeyError
| IndexError
| RequestValidationError.

Definition result (A : Type) : Type := (exn + A)%type.

Definition ret {A} (a : A) : result A := inr a.
Definition raise {A} (e : exn) : result A := inl e.

Definition bind {A B} (m : result A) (k : A -> result B) : result B :=
  match m with
  | inl e => inl e
  | inr a => k a
  end.

Notation "x <- m ;; k" := (bind m (fun x => k))
  (at level 61, m at next level, right associativity).

(** [try: body except ...: raise handler(e)]: every except clause of the
    handlers raises, so a clause list is a map on exceptions. *)
Definition try_except {A} (body : result A) (handler : exn -> exn) : result A :=
  match body with
  | inl e => inl (handler e)
  | inr a => inr a
  end.

(** The status line the framework answers with. *)
Definition http_status {A} (r : result A) : nat :=
  match r with
  | inr _ => 200
  | inl (HTTPException c _) => c
  | inl RequestValidationError => 422
  | inl _ => 500
  end.

(* ===================================================================== *)
(** ** String helpers                                                     *)
(* ===================================================================== *)

Definition NL : string := String "010"%char EmptyString.

(** [strip_prefix p s] is [Some r] when [s = p ++ r]. *)
Fixpoint strip_prefix (p s : string) : option string :=
  match p with
  | EmptyString => Some s
  | String a p' =>
      match s with
      | String b s' => if Ascii.eqb a b then strip_prefix p' s' else None
      | EmptyString => None
      end
  end.

(** Cut [s] at its first line break: the part before it and the part from
    the line break on. *)
Fixpoint cut_line (s : string) : string * string :=
  match s with
  | EmptyString => (EmptyString, EmptyString)
  | String c s' =>
      if Ascii.eqb c "010"%char then (EmptyString, s)
      else let (l, r) := cut_line s' in (String c l, r)
  end.

(** A Python [str] is held as its UTF-8 encoding.  A byte [10xxxxxx]
    continues a code point, every other byte starts one. *)
Definition continues (c : ascii) : bool :=
  match c with
  | Ascii _ _ _ _ _ _ b6 b7 => b7 && negb b6
  end.

(** [len(s)]: the number of code points. *)
Fixpoint len (s : string) : nat :=
  match s with
  | EmptyString => 0
  | String c s' => if continues c then len s' else S (len s')
  end.

(** [s * n]. *)
Fixpoint times (s : string) (n : nat) : string :=
  match n with
  | 0 => EmptyString
  | S n' => s ++ times s n'
  end.

(** Put [c] in front of the first string of [l]. *)
Definition cons_head (c : ascii) (l : list string) : list string :=
  match l with
  | [] => [String c EmptyString]
  | h :: t => String c h :: t
  end.

(** Split on the separator [", "] (the inverse of [", ".join]). *)
Fixpoint split_comma (s : string) : list string :=
  match s with
  | EmptyString => [EmptyString]
  | String c s' =>
      match s' with
      | String d s'' =>
          if (Ascii.eqb c ","%char && Ascii.eqb d " "%char)%bool
          then EmptyString :: split_comma s''
          else cons_head c (split_comma s')
      | EmptyString => [String c EmptyString]
      end
  end.

(** [sep.join(parts)]. *)
Fixpoint join (sep : string) (parts : list string) : string :=
  match parts with
  | [] => EmptyString
  | [p] => p
  | p :: rest => p ++ sep ++ join sep rest
  end.

(* ===================================================================== *)
(** ** Python containers                                                  *)
(* ===================================================================== *)

(** A Python [dict] with [str] keys: insertion-ordered, one entry per key. *)
Definition dict := list (string * pyval).

(** [d[k] = v]: replaces the value in place when [k] is present, appends
    the entry otherwise. *)
Fixpoint dict_set (d : dict) (k : string) (v : pyval) : dict :=
  match d with
  | [] => [(k, v)]
  | (k', v') :: d' =>
      if String.eqb k' k then (k', v) :: d' else (k', v') :: dict_set d' k v
  end.

Fixpoint dict_lookup (d : dict) (k : string) : option pyval :=
  match d with
  | [] => None
  | (k', v) :: d' => if String.eqb k' k then Some v else dict_lookup d' k
  end.

(** [d.get(k, default)]. *)
Definition dict_get (d : dict) (k : string) (default : pyval) : pyval :=
  match dict_lookup d k with
  | Some v => v
  | None => default
  end.

(** [d[k]], raising [KeyError] when the key is absent. *)
Definition dict_getitem (d : dict) (k : string) : result pyval :=
  match dict_lookup d k with
  | Some v => ret v
  | None => raise KeyError
  end.

Definition dict_keys (d : dict) : list string := map fst d.

(** [not l] for a list or a dict. *)
Definition is_empty {A} (l : list A) : bool :=
  match l with
  | [] => true
  | _ :: _ => false
  end.

(** [l[i]], raising [IndexError] out of range. *)
Definition list_getitem {A} (l : list A) (i : nat) : result A :=
  match nth_error l i with
  | Some a => ret a
  | None => raise IndexError
  end.

(** [[f(x) for x in l]]: the first exception ends the comprehension. *)
Fixpoint comprehension {A B} (f : A -> result B) (l : list A) : result (list B) :=
  match l with
  | [] => ret []
  | x :: l' => y <- f x ;; ys <- comprehension f l' ;; ret (y :: ys)
  end.

(* ===================================================================== *)
(** ** [app/schemas.py]                                                   *)
(* ===================================================================== *)

(** [TaskStatus.value]. *)
Definition TaskStatus_value (s : TaskStatus) : string :=
  match s with
  | PENDING => "pending"
  | IN_PROGRESS => "in_progress"
  | COMPLETED => "completed"
  end.

(** [TaskStatus(v)]: the member whose value is [v], if any. *)
Definition TaskStatus_of_value (v : string) : option TaskStatus :=
  if String.eqb v "pending" then Some PENDING
  else if String.eqb v "in_progress" then Some IN_PROGRESS
  else if String.eqb v "completed" then Some COMPLETED
  else None.

(** Field validators of the three models. *)

(** [str] *)
Definition check_str (v : pyval) : result string :=
  match v with
  | VStr s => ret s
  | VEnum s => ret (TaskStatus_value s)
  | _ => raise ValidationError
  end.

(** [datetime] *)
Definition check_datetime (v : pyval) : result pydatetime :=
  match v with
  | VDatetime t => ret t
  | _ => raise ValidationError
  end.

(** [min_length=1, max_length=200] *)
Definition title_ok (s : string) : bool :=
  ((1 <=? len s) && (len s <=? 200))%nat.

(** [max_length=1000] *)
Definition description_ok (s : string) : bool :=
  (len s <=? 1000)%nat.

(** [str = Field(..., min_length=1, max_length=200)] *)
Definition check_title (v : pyval) : result string :=
  s <- check_str v ;;
  if title_ok s then ret s else raise ValidationError.

(** [Optional[str] = Field(None, max_length=1000)] *)
Definition check_description (v : pyval) : result (option string) :=
  match v with
  | VNone => ret None
  | _ =>
      s <- check_str v ;;
      if description_ok s then ret (Some s) else raise ValidationError
  end.

(** [TaskStatus] *)
Definition check_status (v : pyval) : result TaskStatus :=
  match v with
  | VEnum s => ret s
  | VStr s =>
      match TaskStatus_of_value s with
      | Some st => ret st
      | None => raise ValidationError
      end
  | _ => raise ValidationError
  end.

(** [Optional[T]]: [None] passes, anything else goes to [T]'s validator. *)
Definition check_optional {A} (check : pyval -> result A) (v : pyval)
  : result (option A) :=
  match v with
  | VNone => ret None
  | _ => a <- check v ;; ret (Some a)
  end.

(** A JSON request body restricted to the three keys the models read; a
    key is absent ([None]) or carries [null] or a string. *)
Inductive json := JNull | JString (s : string).

Definition pyval_of_json (j : json) : pyval :=
  match j with
  | JNull => VNone
  | JString s => VStr s
  end.

Record Body := {
  body_title : option json;
  body_description : option json;
  body_status : option json
}.

(** A field with a default: the default when the key is absent, the
    validated value otherwise. *)
Definition field_default {A} (default : A) (check : pyval -> result A)
  (f : option json) : result A :=
  match f with
  | None => ret default
  | Some j => check (pyval_of_json j)
  end.

(** A required field ([Field(...)]). *)
Definition field_required {A} (check : pyval -> result A) (f : option json)
  : result A :=
  match f with
  | None => raise ValidationError
  | Some j => check (pyval_of_json j)
  end.

(** [class TaskCreate(TaskBase)] *)
Record TaskCreate := {
  create_title : string;
  create_description : option string;
  create_status : TaskStatus
}.

Definition TaskCreate_validate (b : Body) : result TaskCreate :=
  t <- field_required check_title (body_title b) ;;
  d <- field_default None check_description (body_description b) ;;
  s <- field_default PENDING check_status (body_status b) ;;
  ret {| create_title := t; create_description := d; create_status := s |}.

(** [class TaskUpdate(BaseModel)] *)
Record TaskUpdate := {
  update_title : option string;
  update_description : option string;
  update_status : option TaskStatus
}.

Definition TaskUpdate_validate (b : Body) : result TaskUpdate :=
  t <- field_default None (check_optional check_title) (body_title b) ;;
  d <- field_default None check_description (body_description b) ;;
  s <- field_default None (check_optional check_status) (body_status b) ;;
  ret {| update_title := t; update_description := d; update_status := s |}.

(** [class Task(TaskBase)] *)
Record Task := {
  id : string;
  title : string;
  description : option string;
  status : TaskStatus;
  created_at : pydatetime;
  updated_at : pydatetime
}.

(** [Task(id=..., title=..., ...)]: the constructor validates each keyword
    argument against its field. *)
Definition Task_init (id_ title_ description_ status_ created_at_ updated_at_ : pyval)
  : result Task :=
  i <- check_str id_ ;;
  t <- check_title title_ ;;
  d <- check_description description_ ;;
  s <- check_status status_ ;;
  c <- check_datetime created_at_ ;;
  u <- check_datetime updated_at_ ;;
  ret {| id := i; title := t; description := d; status := s;
         created_at := c; updated_at := u |}.

Definition VOpt (o : option string) : pyval :=
  match o with
  | Some s => VStr s
  | None => VNone
  end.

(* ===================================================================== *)
(** ** [app/database.py]                                                  *)
(* ===================================================================== *)

(** The configuration a [BigQueryClient] holds after [__init__]. *)
Record BigQueryClient := {
  project_id : string;
  dataset_id : string;
  table_id : string
}.

Definition get_full_table_id (self : BigQueryClient) : string :=
  project_id self ++ "." ++ dataset_id self ++ "." ++ table_id self.

(* ===================================================================== *)
(** ** The remote table ([google.cloud.bigquery])                         *)
(* ===================================================================== *)

(** [bigquery.ScalarQueryParameter(name, type_, value)]. *)
Record ScalarQueryParameter := {
  name : string;
  type_ : string;
  value : pyval
}.

(** A row of the six-column table that [_create_table_if_not_exists]
    declares: [description] is NULLABLE, every other column REQUIRED.  A
    TIMESTAMP column holds an instant. *)
Record Row := {
  row_id : string;
  row_title : string;
  row_description : option string;
  row_status : string;
  row_created_at : datetime;
  row_updated_at : datetime
}.

(** The service as the handlers see it through [bigquery_client.client]:
    the rows of the table; a script of failures, one entry per call
    ([Some e]: the call raises [e] and leaves the table alone, [None] or an
    exhausted script: the call is served); and the calls received so far,
    each a query text with its bound parameters. *)
Record Client := {
  table : list Row;
  faults : list (option exn);
  log : list (string * list ScalarQueryParameter)
}.

Definition find_param (params : list ScalarQueryParameter) (n : string)
  : option ScalarQueryParameter :=
  find (fun p => String.eqb (name p) n) params.

(** The value bound to [@n] when it is a STRING (possibly NULL). *)
Definition string_param (params : list ScalarQueryParameter) (n : string)
  : option (option string) :=
  match find_param params n with
  | Some p =>
      if String.eqb (type_ p) "STRING" then
        match value p with
        | VStr s => Some (Some s)
        | VEnum s => Some (Some (TaskStatus_value s))
        | VNone => Some None
        | VDatetime _ => None
        end
      else None
  | None => None
  end.

(** The same for a REQUIRED column: NULL is refused. *)
Definition required_string_param (params : list ScalarQueryParameter)
  (n : string) : option string :=
  match string_param params n with
  | Some (Some s) => Some s
  | _ => None
  end.

(** The instant bound to [@n] when it is a TIMESTAMP: a naive [datetime]
    is taken as UTC. *)
Definition timestamp_param (params : list ScalarQueryParameter) (n : string)
  : option datetime :=
  match find_param params n with
  | Some p =>
      if String.eqb (type_ p) "TIMESTAMP" then
        match value p with
        | VDatetime t => Some (instant t)
        | _ => None
        end
      else None
  | None => None
  end.

Definition columns : list string :=
  ["id"; "title"; "description"; "status"; "created_at"; "updated_at"].

(** The statements the service is modelled to understand. *)
Inductive statement :=
| SInsert
| SSelectAll
| SSelectOne
| SUpdate (assignments : list (string * string))
| SDelete.

(** ["col = @p"] for a column of the table. *)
Definition parse_assignment (s : string) : option (string * string) :=
  let try_column (c : string) (acc : option (string * string)) :=
    match strip_prefix (c ++ " = @") s with
    | Some p => Some (c, p)
    | None => acc
    end in
  fold_right try_column None columns.

Fixpoint parse_assignments (l : list string) : option (list (string * string)) :=
  match l with
  | [] => Some []
  | s :: l' =>
      match parse_assignment s, parse_assignments l' with
      | Some a, Some r => Some (a :: r)
      | _, _ => None
      end
  end.

Definition column_list : string :=
  "id, title, description, status, created_at, updated_at".

Definition where_clause : string := "WHERE id = @task_id" ++ NL ++ "    ".

Definition parse_statement (tbl q : string) : option statement :=
  match strip_prefix (NL ++ "    ") q with
  | None => None
  | Some q1 =>
  match strip_prefix "INSERT INTO `" q1 with
  | Some q2 =>
      match strip_prefix (tbl ++ "` " ++ NL ++ "    ") q2 with
      | Some q3 =>
          if String.eqb q3
               ("(" ++ column_list ++ ")" ++ NL ++
                "    VALUES (@id, @title, @description, @status, @created_at, @updated_at)"
                ++ NL ++ "    ")
          then Some SInsert else None
      | None => None
      end
  | None =>
  match strip_prefix ("SELECT " ++ column_list ++ NL ++ "    FROM `") q1 with
  | Some q2 =>
      match strip_prefix (tbl ++ "`" ++ NL ++ "    ") q2 with
      | Some q3 =>
          if String.eqb q3 ("ORDER BY created_at DESC" ++ NL ++ "    ")
          then Some SSelectAll
          else if String.eqb q3 where_clause then Some SSelectOne
          else None
      | None => None
      end
  | None =>
  match strip_prefix "UPDATE `" q1 with
  | Some q2 =>
      match strip_prefix (tbl ++ "`" ++ NL ++ "    SET ") q2 with
      | Some q3 =>
          let (clause, rest) := cut_line q3 in
          if String.eqb rest (NL ++ "    " ++ where_clause)
          then option_map SUpdate (parse_assignments (split_comma clause))
          else None
      | None => None
      end
  | None =>
  match strip_prefix "DELETE FROM `" q1 with
  | Some q2 =>
      match strip_prefix (tbl ++ "`" ++ NL ++ "    ") q2 with
      | Some q3 => if String.eqb q3 where_clause then Some SDelete else None
      | None => None
      end
  | None => None
  end end end end end.

(** [SET col = @p]: the row update one assignment stands for, when the
    bound parameter has the column's type. *)
Definition compile_assignment (params : list ScalarQueryParameter)
  (a : string * string) : option (Row -> Row) :=
  let (c, p) := a in
  if String.eqb c "id" then
    option_map (fun v r =>
      {| row_id := v; row_title := row_title r;
         row_description := row_description r; row_status := row_status r;
         row_created_at := row_created_at r;
         row_updated_at := row_updated_at r |}) (required_string_param params p)
  else if String.eqb c "title" then
    option_map (fun v r =>
      {| row_id := row_id r; row_title := v;
         row_description := row_description r; row_status := row_status r;
         row_created_at := row_created_at r;
         row_updated_at := row_updated_at r |}) (required_string_param params p)
  else if String.eqb c "description" then
    option_map (fun v r =>
      {| row_id := row_id r; row_title := row_title r;
         row_description := v; row_status := row_status r;
         row_created_at := row_created_at r;
         row_updated_at := row_updated_at r |}) (string_param params p)
  else if String.eqb c "status" then
    option_map (fun v r =>
      {| row_id := row_id r; row_title := row_title r;
         row_description := row_description r; row_status := v;
         row_created_at := row_created_at r;
         row_updated_at := row_updated_at r |}) (required_string_param params p)
  else if String.eqb c "created_at" then
    option_map (fun v r =>
      {| row_id := row_id r; row_title := row_title r;
         row_description := row_description r; row_status := row_status r;
         row_created_at := v;
         row_updated_at := row_updated_at r |}) (timestamp_param params p)
  else if String.eqb c "updated_at" then
    option_map (fun v r =>
      {| row_id := row_id r; row_title := row_title r;
         row_description := row_description r; row_status := row_status r;
         row_created_at := row_created_at r;
         row_updated_at := v |}) (timestamp_param params p)
  else None.

Fixpoint compile_set (params : list ScalarQueryParameter)
  (l : list (string * string)) : option (Row -> Row) :=
  match l with
  | [] => Some (fun r => r)
  | a :: l' =>
      match compile_assignment params a, compile_set params l' with
      | Some f, Some g => Some (fun r => g (f r))
      | _, _ => None
      end
  end.

(** [ORDER BY created_at DESC], as a stable insertion sort. *)
Fixpoint insert_desc (r : Row) (l : list Row) : list Row :=
  match l with
  | [] => [r]
  | x :: l' =>
      if (row_created_at x <=? row_created_at r)%Z then r :: x :: l'
      else x :: insert_desc r l'
  end.

Fixpoint order_by_created_at_desc (l : list Row) : list Row :=
  match l with
  | [] => []
  | r :: l' => insert_desc r (order_by_created_at_desc l')
  end.

Definition id_is (tid : string) (r : Row) : bool := String.eqb (row_id r) tid.

(** What a served statement does: the table afterwards and the rows of
    the result.  INSERT appends its row; a SELECT without ORDER BY yields
    the matching rows in table order; UPDATE and DELETE act on every row
    whose id is the bound [@task_id].  A statement that does not parse, or
    whose parameters do not fit the columns, is refused with
    [BadRequest]. *)
Definition execute (tbl : string) (rows : list Row) (q : string)
  (params : list ScalarQueryParameter) : result (list Row * list Row) :=
  match parse_statement tbl q with
  | Some SInsert =>
      match required_string_param params "id",
            required_string_param params "title",
            string_param params "description",
            required_string_param params "status",
            timestamp_param params "created_at",
            timestamp_param params "updated_at" with
      | Some i, Some t, Some d, Some s, Some c, Some u =>
          ret (rows ++ [{| row_id := i; row_title := t; row_description := d;
                           row_status := s; row_created_at := c;
                           row_updated_at := u |}], [])
      | _, _, _, _, _, _ => raise BadRequest
      end
  | Some SSelectAll => ret (rows, order_by_created_at_desc rows)
  | Some SSelectOne =>
      match required_string_param params "task_id" with
      | Some tid => ret (rows, filter (id_is tid) rows)
      | None => raise BadRequest
      end
  | Some (SUpdate assignments) =>
      match required_string_param params "task_id",
            compile_set params assignments with
      | Some tid, Some f =>
          ret (map (fun r => if id_is tid r then f r else r) rows, [])
      | _, _ => raise BadRequest
      end
  | Some SDelete =>
      match required_string_param params "task_id" with
      | Some tid => ret (filter (fun r => negb (id_is tid r)) rows, [])
      | None => raise BadRequest
      end
  | None => raise BadRequest
  end.

(** The failure the script holds for the next call, if any. *)
Definition next_fault (c : Client) : option exn := hd None (faults c).

(** The service after a call: the call is logged and its script entry
    consumed. *)
Definition after_call (c : Client) (q : string)
  (params : list ScalarQueryParameter) (rows' : list Row) : Client :=
  {| table := rows'; faults := tl (faults c); log := log c ++ [(q, params)] |}.

(** [client.query(query, job_config=...)] followed by [.result()]. *)
Definition client_query (tbl : string) (c : Client) (q : string)
  (params : list ScalarQueryParameter) : Client * result (list Row) :=
  match next_fault c with
  | Some e => (after_call c q params (table c), raise e)
  | None =>
      match execute tbl (table c) q params with
      | inr (rows', res) => (after_call c q params rows', ret res)
      | inl e => (after_call c q params (table c), raise e)
      end
  end.

(* ===================================================================== *)
(** ** [main.py]                                                          *)
(* ===================================================================== *)

Section main.

(** [from app.database import bigquery_client]: the process-wide
    configuration. *)
Variable bigquery_client : BigQueryClient.

(** [run_bigquery_query(execute_query)]: the call runs on the worker pool
    and the handler resumes with its outcome; the table provisioned at
    start-up is the one the configured name denotes. *)
Definition run_bigquery_query (c : Client) (query : string)
  (job_config : list ScalarQueryParameter) : Client * result (list Row) :=
  client_query (get_full_table_id bigquery_client) c query job_config.

(** A row read from the table presents its TIMESTAMP columns as aware
    [datetime]s in UTC. *)
Definition row_to_task (row : Row) : result Task :=
  Task_init (VStr (row_id row))
            (VStr (row_title row))
            (VOpt (row_description row))
            (VStr (row_status row))
            (VDatetime (utc (row_created_at row)))
            (VDatetime (utc (row_updated_at row))).

(** *** CREATE - POST /tasks/ *)

Definition create_task_query : string :=
  NL ++ "    INSERT INTO `" ++ get_full_table_id bigquery_client ++ "` " ++ NL ++
  "    (id, title, description, status, created_at, updated_at)" ++ NL ++
  "    VALUES (@id, @title, @description, @status, @created_at, @updated_at)" ++ NL ++
  "    ".

Definition create_task_params (task : TaskCreate) (task_id : string)
  (current_time : pydatetime) : list ScalarQueryParameter :=
  [ {| name := "id"; type_ := "STRING"; value := VStr task_id |};
    {| name := "title"; type_ := "STRING"; value := VStr (create_title task) |};
    {| name := "description"; type_ := "STRING";
       value := VOpt (create_description task) |};
    {| name := "status"; type_ := "STRING";
       value := VStr (TaskStatus_value (create_status task)) |};
    {| name := "created_at"; type_ := "TIMESTAMP"; value := VDatetime current_time |};
    {| name := "updated_at"; type_ := "TIMESTAMP"; value := VDatetime current_time |} ].

Definition create_task_except (e : exn) : exn :=
  match e with
  | BadRequest => HTTPException 400 "Invalid request parameters"
  | NotFound | GoogleAPICallError => HTTPException 500 "Database operation failed"
  | _ => HTTPException 500 "Failed to create task"
  end.

(** [uuid4] is the value [str(uuid.uuid4())] yields and [now] the reading
    of the clock in this call. *)
Definition create_task (c : Client) (task : TaskCreate) (uuid4 : string)
  (now : datetime) : Client * result Task :=
  let task_id := uuid4 in
  let current_time := replace_tzinfo_None (datetime_now_utc now) in
  let query := create_task_query in
  let job_config := create_task_params task task_id current_time in
  let (c', r) := run_bigquery_query c query job_config in
  (c', try_except
         (_ <- r ;;
          Task_init (VStr task_id)
                    (VStr (create_title task))
                    (VOpt (create_description task))
                    (VEnum (create_status task))
                    (VDatetime current_time)
                    (VDatetime current_time))
         create_task_except).

(** *** READ (All) - GET /tasks/ *)

Definition list_tasks_query : string :=
  NL ++ "    SELECT id, title, description, status, created_at, updated_at" ++ NL ++
  "    FROM `" ++ get_full_table_id bigquery_client ++ "`" ++ NL ++
  "    ORDER BY created_at DESC" ++ NL ++
  "    ".

Definition list_tasks_except (e : exn) : exn :=
  match e with
  | BadRequest => HTTPException 400 "Invalid query parameters"
  | NotFound | GoogleAPICallError => HTTPException 500 "Database operation failed"
  | _ => HTTPException 500 "Failed to fetch tasks"
  end.

Definition list_tasks (c : Client) : Client * result (list Task) :=
  let query := list_tasks_query in
  let (c', r) := run_bigquery_query c query [] in
  (c', try_except
         (results <- r ;;
          tasks <- comprehension row_to_task results ;;
          ret tasks)
         list_tasks_except).

(** *** READ (Single) - GET /tasks/{task_id} *)

Definition get_task_query : string :=
  NL ++ "    SELECT id, title, description, status, created_at, updated_at" ++ NL ++
  "    FROM `" ++ get_full_table_id bigquery_client ++ "`" ++ NL ++
  "    WHERE id = @task_id" ++ NL ++
  "    ".

Definition task_id_param (task_id : string) : ScalarQueryParameter :=
  {| name := "task_id"; type_ := "STRING"; value := VStr task_id |}.

(** [except HTTPException: raise] comes first, so the handler's own 404
    passes through as it is. *)
Definition get_task_except (e : exn) : exn :=
  match e with
  | HTTPException c d => HTTPException c d
  | NotFound => HTTPException 404 "Task not found"
  | BadRequest => HTTPException 400 "Invalid request parameters"
  | GoogleAPICallError => HTTPException 500 "Database operation failed"
  | _ => HTTPException 500 "Failed to fetch task"
  end.

(** The body of the [try] once the rows have arrived. *)
Definition get_task_body (results : list Row) : result Task :=
  if is_empty results
  then raise (HTTPException 404 "Task not found")
  else r0 <- list_getitem results 0 ;; row_to_task r0.

Definition get_task (c : Client) (task_id : string) : Client * result Task :=
  let query := get_task_query in
  let job_config := [task_id_param task_id] in
  let (c', r) := run_bigquery_query c query job_config in
  (c', try_except (results <- r ;; get_task_body results) get_task_except).

(** *** UPDATE - PUT /tasks/{task_id} *)

Definition update_task_fields (task_update : TaskUpdate) (now : datetime) : dict :=
  let update_fields : dict := [] in
  let update_fields :=
    match update_title task_update with
    | Some t => dict_set update_fields "title" (VStr t)
    | None => update_fields
    end in
  let update_fields :=
    match update_description task_update with
    | Some d => dict_set update_fields "description" (VStr d)
    | None => update_fields
    end in
  let update_fields :=
    match update_status task_update with
    | Some s => dict_set update_fields "status" (VStr (TaskStatus_value s))
    | None => update_fields
    end in
  dict_set update_fields "updated_at"
           (VDatetime (replace_tzinfo_None (datetime_now_utc now))).

Definition set_clause_of (update_fields : dict) : string :=
  join ", " (map (fun field : string => (field ++ " = @" ++ field)%string)
                 (dict_keys update_fields)).

Definition update_task_query (update_fields : dict) : string :=
  NL ++ "    UPDATE `" ++ get_full_table_id bigquery_client ++ "`" ++ NL ++
  "    SET " ++ set_clause_of update_fields ++ NL ++
  "    WHERE id = @task_id" ++ NL ++
  "    ".

Definition update_task_params (task_id : string) (update_fields : dict)
  : list ScalarQueryParameter :=
  [task_id_param task_id] ++
  map (fun item : string * pyval =>
         let (field, v) := item in
         {| name := field;
            type_ := if negb (String.eqb field "updated_at")
                     then "STRING" else "TIMESTAMP";
            value := v |})
      update_fields.

Definition update_task_except (e : exn) : exn :=
  match e with
  | NotFound => HTTPException 404 "Task not found"
  | BadRequest => HTTPException 400 "Invalid request parameters"
  | GoogleAPICallError => HTTPException 500 "Database operation failed"
  | _ => HTTPException 500 "Failed to update task"
  end.

(** [now] is the reading of the clock when [update_fields['updated_at']]
    is assigned.  The existence check is outside the [try], so whatever
    [get_task] raises leaves [update_task] as it is. *)
Definition update_task (c : Client) (task_id : string)
  (task_update : TaskUpdate) (now : datetime) : Client * result Task :=
  match get_task c task_id with
  | (c1, inl e) => (c1, inl e)
  | (c1, inr existing_task) =>
      let update_fields := update_task_fields task_update now in
      if is_empty update_fields then (c1, ret existing_task)
      else
        let query := update_task_query update_fields in
        let job_config := update_task_params task_id update_fields in
        let (c2, r) := run_bigquery_query c1 query job_config in
        (c2, try_except
               (_ <- r ;;
                let updated_status :=
                  match update_status task_update with
                  | Some s => s
                  | None => status existing_task
                  end in
                u <- dict_getitem update_fields "updated_at" ;;
                Task_init (VStr task_id)
                          (dict_get update_fields "title"
                                    (VStr (title existing_task)))
                          (dict_get update_fields "description"
                                    (VOpt (description existing_task)))
                          (VEnum updated_status)
                          (VDatetime (created_at existing_task))
                          u)
               update_task_except)
  end.

(** *** DELETE - DELETE /tasks/{task_id} *)

Definition delete_task_query : string :=
  NL ++ "    DELETE FROM `" ++ get_full_table_id bigquery_client ++ "`" ++ NL ++
  "    WHERE id = @task_id" ++ NL ++
  "    ".

Definition delete_task_except (e : exn) : exn :=
  match e with
  | NotFound => HTTPException 404 "Task not found"
  | BadRequest => HTTPException 400 "Invalid request parameters"
  | GoogleAPICallError => HTTPException 500 "Database operation failed"
  | _ => HTTPException 500 "Failed to delete task"
  end.

Definition delete_task (c : Client) (task_id : string) : Client * result dict :=
  match get_task c task_id with
  | (c1, inl e) => (c1, inl e)
  | (c1, inr _) =>
      let query := delete_task_query in
      let job_config := [task_id_param task_id] in
      let (c2, r) := run_bigquery_query c1 query job_config in
      (c2, try_except
             (_ <- r ;; ret [("message", VStr "Task deleted successfully")])
             delete_task_except)
  end.

(** *** The routes: the framework validates the body against the
    handler's model and answers 422 without calling the handler when the
    body does not fit. *)

Definition POST_tasks (c : Client) (b : Body) (uuid4 : string) (now : datetime)
  : Client * result Task :=
  match TaskCreate_validate b with
  | inl _ => (c, raise RequestValidationError)
  | inr task => create_task c task uuid4 now
  end.

Definition PUT_tasks (c : Client) (task_id : string) (b : Body) (now : datetime)
  : Client * result Task :=
  match TaskUpdate_validate b with
  | inl _ => (c, raise RequestValidationError)
  | inr task_update => update_task c task_id task_update now
  end.

End main.

(* ===================================================================== *)
(** ** The data model of the table and of the responses                  *)
(* ===================================================================== *)

Definition optional_ok (o : option string) : bool :=
  match o with
  | None => true
  | Some s => description_ok s
  end.

(** A row that satisfies the constraints of the [Task] model: the title
    and description bounds and a status among the three members. *)
Definition row_ok (r : Row) : bool :=
  title_ok (row_title r) && optional_ok (row_description r) &&
  match TaskStatus_of_value (row_status r) with
  | Some _ => true
  | None => false
  end.

Definition task_ok (t : Task) : bool :=
  title_ok (title t) && optional_ok (description t).

(** The row a [Task] is the image of. *)
Definition row_of_task (t : Task) : Row :=
  {| row_id := id t; row_title := title t; row_description := description t;
     row_status := TaskStatus_value (status t);
     row_created_at := instant (created_at t);
     row_updated_at := instant (updated_at t) |}.

(** The task a create request stands for once the id and the time of the
    call are fixed: both timestamps are the naive [datetime] of that
    time. *)
Definition created (task : TaskCreate) (task_id : string) (now : datetime) : Task :=
  {| id := task_id;
     title := create_title task;
     description := create_description task;
     status := create_status task;
     created_at := naive now;
     updated_at := naive now |}.

(** The merge of a stored task and an update request: a supplied field
    overrides, an absent one keeps the prior value, [created_at] is kept
    and [updated_at] is the time of the update. *)
Definition merged (prior : Task) (task_update : TaskUpdate) (now : datetime) : Task :=
  {| id := id prior;
     title := match update_title task_update with
              | Some t => t
              | None => title prior
              end;
     description := match update_description task_update with
                    | Some d => Some d
                    | None => description prior
                    end;
     status := match update_status task_update with
               | Some s => s
               | None => status prior
               end;
     created_at := created_at prior;
     updated_at := naive now |}.

(** The same merge on a stored row. *)
Definition merged_row (task_update : TaskUpdate) (now : datetime) (r : Row) : Row :=
  {| row_id := row_id r;
     row_title := match update_title task_update with
                  | Some t => t
                  | None => row_title r
                  end;
     row_description := match update_description task_update with
                        | Some d => Some d
                        | None => row_description r
                        end;
     row_status := match update_status task_update with
                   | Some s => TaskStatus_value s
                   | None => row_status r
                   end;
     row_created_at := row_created_at r;
     row_updated_at := now |}.

(** The value a row holds in a column. *)
Definition row_column (r : Row) (col : string) : option pyval :=
  if String.eqb col "id" then Some (VStr (row_id r))
  else if String.eqb col "title" then Some (VStr (row_title r))
  else if String.eqb col "description" then Some (VOpt (row_description r))
  else if String.eqb col "status" then Some (VStr (row_status r))
  else if String.eqb col "created_at" then Some (VDatetime (utc (row_created_at r)))
  else if String.eqb col "updated_at" then Some (VDatetime (utc (row_updated_at r)))
  else None.

(** A body in which every [null] has been dropped. *)
Definition drop_null (f : option json) : option json :=
  match f with
  | Some JNull => None
  | _ => f
  end.

Definition drop_nulls (b : Body) : Body :=
  {| body_title := drop_null (body_title b);
     body_description := drop_null (body_description b);
     body_status := drop_null (body_status b) |}.

(** The calls the service received between [c] and [c'], and their query
    texts. *)
Definition issued (c c' : Client) : list (string * list ScalarQueryParameter) :=
  skipn (List.length (log c)) (log c').

Definition texts (entries : list (string * list ScalarQueryParameter)) : list string :=
  map fst entries.

(** Two sequences of query texts never differ at a position both have. *)
Definition agree (l1 l2 : list string) : Prop :=
  forall i q1 q2, nth_error l1 i = Some q1 -> nth_error l2 i = Some q2 -> q1 = q2.

Definition present {A} (o : option A) : bool :=
  match o with
  | Some _ => true
  | None => false
  end.

(** Whether a handler returned or raised. *)
Definition present_result {A} (r : result A) : bool :=
  match r with
  | inr _ => true
  | inl _ => false
  end.

(** Two update requests that supply the same fields, whatever the values. *)
Definition same_fields (u1 u2 : TaskUpdate) : Prop :=
  present (update_title u1) = present (update_title u2) /\
  present (update_description u1) = present (update_description u2) /\
  present (update_status u1) = present (update_status u2).

Definition rows_newest_first : list Row -> Prop :=
  StronglySorted (fun a b => (row_created_at b <= row_created_at a)%Z).

(** [created_at] never increases along the list. *)
Definition newest_first (ts : list Task) : Prop :=
  StronglySorted
    (fun a b => (instant (created_at b) <= instant (created_at a))%Z) ts.

(** [created_at] decreases along the list. *)
Definition strictly_newest_first (ts : list Task) : Prop :=
  StronglySorted
    (fun a b => (instant (created_at b) < instant (created_at a))%Z) ts.

(** A task as a read of its row presents it: the same values, the two
    timestamps as aware [datetime]s of the same instants. *)
Definition read_back (t : Task) : Task :=
  {| id := id t; title := title t; description := description t;
     status := status t;
     created_at := utc (instant (created_at t));
     updated_at := utc (instant (updated_at t)) |}.

(** What a validated [TaskUpdate] and a validated [TaskCreate] satisfy. *)
Definition update_ok (u : TaskUpdate) : bool :=
  match update_title u with
  | Some t => title_ok t
  | None => true
  end && optional_ok (update_description u).

Definition create_ok (t : TaskCreate) : bool :=
  title_ok (create_title t) && optional_ok (create_description t).

(** *** Sample data *)

Definition sample_client : BigQueryClient :=
  {| project_id := "proj"; dataset_id := "todo"; table_id := "tasks" |}.

Definition sample_row (i : string) (at_ : datetime) : Row :=
  {| row_id := i; row_title := "write report"; row_description := None;
     row_status := "pending"; row_created_at := at_; row_updated_at := at_ |}.

Definition only_status (v : string) : Body :=
  {| body_title := None; body_description := None;
     body_status := Some (JString v) |}.

Definition empty_body : Body :=
  {| body_title := None; body_description := None; body_status := None |}.

Definition null_title_body : Body :=
  {| body_title := Some JNull; body_description := Some (JString "by Friday");
     body_status := None |}.

Definition title_only (s : string) : Body :=
  {| body_title := Some (JString s); body_description := None;
     body_status := None |}.

Definition empty_store : Client := {| table := []; faults := []; log := [] |}.

(** Two rows share the id ["a"]. *)
Definition sample_store : Client :=
  {| table := [sample_row "a" 10; sample_row "b" 20; sample_row "a" 30];
     faults := []; log := [] |}.

(* ===================================================================== *)
(** ** [main.py]: the health check                                        *)
(* ===================================================================== *)

(** [GET /]: no model to validate, no call to the service. *)
Definition root : dict := [("message", VStr "Todo API with BigQuery")].

(* ===================================================================== *)
(** ** [app/database.py]: start-up                                        *)
(* ===================================================================== *)

(** What [BigQueryClient()] can raise. *)
Inductive startup_error :=
| ValueError (msg : string)
| ConnectionError (msg : string).

(** [os.environ] after [load_dotenv()]. *)
Definition environ := list (string * string).

(** [os.getenv(k)]. *)
Fixpoint getenv (env : environ) (k : string) : option string :=
  match env with
  | [] => None
  | (k', v) :: env' => if String.eqb k' k then Some v else getenv env' k
  end.

(** [not os.getenv(var)]: the variable is unset or set to the empty
    string. *)
Definition unset (env : environ) (var : string) : bool :=
  match getenv env var with
  | None => true
  | Some EmptyString => true
  | Some (String _ _) => false
  end.

Definition required_vars : list string :=
  ["BIGQUERY_PROJECT_ID"; "BIGQUERY_DATASET"; "BIGQUERY_TABLE"].

(** [[var for var in required_vars if not os.getenv(var)]]. *)
Definition missing (env : environ) : list string :=
  filter (unset env) required_vars.

(** [bigquery.SchemaField(name, field_type, mode=...)]. *)
Record SchemaField := {
  field_name : string;
  field_type : string;
  mode : string
}.

(** The [schema] of [_create_table_if_not_exists]. *)
Definition task_schema : list SchemaField :=
  [ {| field_name := "id"; field_type := "STRING"; mode := "REQUIRED" |};
    {| field_name := "title"; field_type := "STRING"; mode := "REQUIRED" |};
    {| field_name := "description"; field_type := "STRING"; mode := "NULLABLE" |};
    {| field_name := "status"; field_type := "STRING"; mode := "REQUIRED" |};
    {| field_name := "created_at"; field_type := "TIMESTAMP"; mode := "REQUIRED" |};
    {| field_name := "updated_at"; field_type := "TIMESTAMP"; mode := "REQUIRED" |} ].

(** A dataset and a table as the service holds them. *)
Record Dataset := {
  ds_project : string;
  ds_id : string;
  location : string
}.

Record Table := {
  tbl_project : string;
  tbl_dataset : string;
  tbl_id : string;
  schema : list SchemaField
}.

(** The service at start-up: its datasets and tables, and a script of
    failures, one entry per call ([Some msg]: the call raises an exception
    whose text is [msg]). *)
Record Warehouse := {
  datasets : list Dataset;
  tables : list Table;
  api_faults : list (option string)
}.

Definition is_dataset (p d : string) (x : Dataset) : bool :=
  String.eqb (ds_project x) p && String.eqb (ds_id x) d.

Definition is_table (p d t : string) (x : Table) : bool :=
  String.eqb (tbl_project x) p && String.eqb (tbl_dataset x) d &&
  String.eqb (tbl_id x) t.

(** [client.create_dataset(dataset, exists_ok=True)]: a dataset that is
    there already is left as it is. *)
Definition create_dataset (w : Warehouse) (ds : Dataset)
  : Warehouse * (string + unit) :=
  match api_faults w with
  | Some msg :: fs =>
      ({| datasets := datasets w; tables := tables w; api_faults := fs |},
       inl msg)
  | _ =>
      ({| datasets :=
            if existsb (is_dataset (ds_project ds) (ds_id ds)) (datasets w)
            then datasets w else datasets w ++ [ds];
          tables := tables w;
          api_faults := tl (api_faults w) |},
       inr tt)
  end.

(** [client.create_table(table, exists_ok=True)]: refused when the dataset
    is not there; a table that is there already is left as it is, schema
    included. *)
Definition create_table (w : Warehouse) (t : Table)
  : Warehouse * (string + unit) :=
  match api_faults w with
  | Some msg :: fs =>
      ({| datasets := datasets w; tables := tables w; api_faults := fs |},
       inl msg)
  | _ =>
      if existsb (is_dataset (tbl_project t) (tbl_dataset t)) (datasets w)
      then
        ({| datasets := datasets w;
            tables :=
              if existsb (is_table (tbl_project t) (tbl_dataset t) (tbl_id t))
                         (tables w)
              then tables w else tables w ++ [t];
            api_faults := tl (api_faults w) |},
         inr tt)
      else
        ({| datasets := datasets w; tables := tables w;
            api_faults := tl (api_faults w) |},
         inl ("Not found: Dataset " ++ tbl_project t ++ ":" ++ tbl_dataset t)%string)
  end.

(** [_create_dataset_if_not_exists]: the service afterwards and the line
    printed.  An exception ends in the [print] of the [except] clause. *)
Definition _create_dataset_if_not_exists (self : BigQueryClient)
  (w : Warehouse) : Warehouse * list string :=
  let dataset := {| ds_project := project_id self; ds_id := dataset_id self;
                    location := "US" |} in
  match create_dataset w dataset with
  | (w', inr _) => (w', [("✅ Dataset '" ++ dataset_id self ++ "' is ready")%string])
  | (w', inl e) => (w', [("⚠️  Note: " ++ e)%string])
  end.

(** [_create_table_if_not_exists]. *)
Definition _create_table_if_not_exists (self : BigQueryClient)
  (w : Warehouse) : Warehouse * list string :=
  let table := {| tbl_project := project_id self;
                  tbl_dataset := dataset_id self;
                  tbl_id := table_id self;
                  schema := task_schema |} in
  match create_table w table with
  | (w', inr _) => (w', [("✅ Table '" ++ table_id self ++ "' is ready")%string])
  | (w', inl e) => (w', [("❌ Error creating table: " ++ e)%string])
  end.

(** The value of a variable the check has found set. *)
Definition environ_value (env : environ) (k : string) : string :=
  match getenv env k with
  | Some v => v
  | None => EmptyString
  end.

(** [BigQueryClient.__init__]: [connect] is the outcome of
    [bigquery.Client()], [inl msg] for an exception whose text is [msg].
    The result is the service afterwards, the lines printed, and the
    instance or the exception raised. *)
Definition BigQueryClient_init (env : environ) (connect : string + unit)
  (w : Warehouse) : Warehouse * list string * (startup_error + BigQueryClient) :=
  if negb (is_empty (missing env)) then
    (w, [], inl (ValueError ("Missing required environment variables: "
                             ++ join ", " (missing env))%string))
  else
    match connect with
    | inl e =>
        (w, [], inl (ConnectionError
                       ("Failed to initialize BigQuery client: " ++ e)%string))
    | inr _ =>
        let self := {| project_id := environ_value env "BIGQUERY_PROJECT_ID";
                       dataset_id := environ_value env "BIGQUERY_DATASET";
                       table_id := environ_value env "BIGQUERY_TABLE" |} in
        let (w1, out1) := _create_dataset_if_not_exists self w in
        let (w2, out2) := _create_table_if_not_exists self w1 in
        (w2, out1 ++ out2, inr self)
    end.

(* ===================================================================== *)
(** ** Predicates on tables and requests                                  *)
(* ===================================================================== *)

(** The bodies [TaskCreate] accepts, read off its three [Field]s. *)
Definition create_body_ok (b : Body) : bool :=
  match body_title b with
  | Some (JString s) => title_ok s
  | _ => false
  end &&
  match body_description b with
  | Some (JString s) => description_ok s
  | _ => true
  end &&
  match body_status b with
  | Some (JString v) => present (TaskStatus_of_value v)
  | Some JNull => false
  | None => true
  end.

(** The bodies [TaskUpdate] accepts. *)
Definition update_body_ok (b : Body) : bool :=
  match body_title b with
  | Some (JString s) => title_ok s
  | _ => true
  end &&
  match body_description b with
  | Some (JString s) => description_ok s
  | _ => true
  end &&
  match body_status b with
  | Some (JString v) => present (TaskStatus_of_value v)
  | _ => true
  end.

(** The same conditions spelled out, lengths in code points. *)
Definition create_body_accepted (b : Body) : Prop :=
  (exists s, body_title b = Some (JString s) /\ 1 <= len s <= 200) /\
  (forall d, body_description b = Some (JString d) -> len d <= 1000) /\
  (body_status b = None \/
   exists st, body_status b = Some (JString (TaskStatus_value st))).

Definition update_body_accepted (b : Body) : Prop :=
  (forall s, body_title b = Some (JString s) -> 1 <= len s <= 200) /\
  (forall d, body_description b = Some (JString d) -> len d <= 1000) /\
  (forall v, body_status b = Some (JString v) ->
             exists st, v = TaskStatus_value st).

(** A row within the constraints of [Task]. *)
Definition row_within_model (r : Row) : Prop :=
  1 <= len (row_title r) <= 200 /\
  (forall d, row_description r = Some d -> len d <= 1000) /\
  (exists st, row_status r = TaskStatus_value st).

(** [created_at <= updated_at] in a row. *)
Definition row_times_ok (r : Row) : bool :=
  (row_created_at r <=? row_updated_at r)%Z.

(** The ids of the rows. *)
Definition row_ids (rows : list Row) : list string := map row_id rows.

(** An exception a handler lets out is an [HTTPException]. *)
Definition is_http {A} (r : result A) : bool :=
  match r with
  | inr _ => true
  | inl (HTTPException _ _) => true
  | inl _ => false
  end.

(** The exceptions the service raises, as opposed to the handlers' own. *)
Definition service_error (e : exn) : bool :=
  match e with
  | HTTPException _ _ => false
  | _ => true
  end.

(** The status each class of service error is answered with in the
    handlers that look a task up, and in those that do not. *)
Definition status_with_lookup (e : exn) : nat :=
  match e with
  | HTTPException c _ => c
  | NotFound => 404
  | BadRequest => 400
  | _ => 500
  end.

Definition status_without_lookup (e : exn) : nat :=
  match e with
  | BadRequest => 400
  | _ => 500
  end.

(** A bound parameter fits a column: same name, same type, and no NULL
    for a REQUIRED column. *)
Definition fits (p : ScalarQueryParameter) (f : SchemaField) : Prop :=
  name p = field_name f /\ type_ p = field_type f /\
  (mode f = "REQUIRED" -> value p <> VNone).

(** The dataset and the table of a configuration are there. *)
Definition provisioned (self : BigQueryClient) (w : Warehouse) : bool :=
  existsb (is_dataset (project_id self) (dataset_id self)) (datasets w) &&
  existsb (is_table (project_id self) (dataset_id self) (table_id self))
          (tables w).

(** *** More sample data *)

(** A service that fails the next call, and one that fails the call after
    it. *)
Definition failing (e : exn) (rows : list Row) : Client :=
  {| table := rows; faults := [Some e]; log := [] |}.

Definition failing_second (e : exn) (rows : list Row) : Client :=
  {| table := rows; faults := [None; Some e]; log := [] |}.

(** A row with a status that is no member of [TaskStatus]. *)
Definition bad_row : Row :=
  {| row_id := "x"; row_title := "t"; row_description := None;
     row_status := "archived"; row_created_at := 1; row_updated_at := 1 |}.

Definition sample_environ : environ :=
  [("BIGQUERY_PROJECT_ID", "proj"); ("BIGQUERY_DATASET", "todo");
   ("BIGQUERY_TABLE", "tasks")].

Definition empty_warehouse : Warehouse :=
  {| datasets := []; tables := []; api_faults := [] |}.

(* ===================================================================== *)
(** ** Strings and statements                                             *)
(* ===================================================================== *)

Lemma strip_prefix_app (p q s : string) :
  strip_prefix (p ++ q) (p ++ s) = strip_prefix q s.
Proof.
  induction p as [|a p IH]; cbn; [reflexivity|].
  now rewrite Ascii.eqb_refl.
Qed.

Ltac parse_text :=
  unfold parse_statement;
  match goal with
  | |- context [get_full_table_id ?bc] =>
      generalize (get_full_table_id bc); intro
  end;
  cbn; rewrite strip_prefix_app; cbn; reflexivity.

Section statements.

Variable bc : BigQueryClient.
Let tbl := get_full_table_id bc.

Lemma parse_create_task_query :
  parse_statement tbl (create_task_query bc) = Some SInsert.
Proof. unfold tbl, create_task_query. parse_text. Qed.

Lemma parse_list_tasks_query :
  parse_statement tbl (list_tasks_query bc) = Some SSelectAll.
Proof. unfold tbl, list_tasks_query. parse_text. Qed.

Lemma parse_get_task_query :
  parse_statement tbl (get_task_query bc) = Some SSelectOne.
Proof. unfold tbl, get_task_query. parse_text. Qed.

Lemma parse_delete_task_query :
  parse_statement tbl (delete_task_query bc) = Some SDelete.
Proof. unfold tbl, delete_task_query. parse_text. Qed.

(** The SET clause parses back to one assignment [k = @k] per key of
    [update_fields], in the order of the keys. *)
Lemma parse_update_task_query (task_update : TaskUpdate) (now : datetime) :
  parse_statement tbl (update_task_query bc (update_task_fields task_update now))
  = Some (SUpdate (map (fun k => (k, k))
                       (dict_keys (update_task_fields task_update now)))).
Proof.
  unfold tbl, update_task_query.
  destruct task_update as [[t|] [d|] [s|]]; parse_text.
Qed.

End statements.

(* ===================================================================== *)
(** ** Validation                                                         *)
(* ===================================================================== *)

Lemma TaskStatus_of_value_value (s : TaskStatus) :
  TaskStatus_of_value (TaskStatus_value s) = Some s.
Proof. destruct s; reflexivity. Qed.

Lemma TaskStatus_value_of_value (v : string) (s : TaskStatus) :
  TaskStatus_of_value v = Some s -> TaskStatus_value s = v.
Proof.
  unfold TaskStatus_of_value.
  destruct (String.eqb_spec v "pending"); [intros [= <-]; now subst|].
  destruct (String.eqb_spec v "in_progress"); [intros [= <-]; now subst|].
  destruct (String.eqb_spec v "completed"); [intros [= <-]; now subst|].
  discriminate.
Qed.

(** [row_to_task] succeeds exactly on the rows that satisfy the model, and
    the task it builds carries the row's six values. *)
Lemma row_to_task_ok (r : Row) :
  row_ok r = true ->
  exists t, row_to_task r = inr t /\ row_of_task t = r /\ task_ok t = true.
Proof.
  unfold row_ok, row_to_task, Task_init, check_title, check_description,
    check_status.
  destruct r as [i t d s c u]; cbn.
  intros H. apply andb_prop in H as [H Hs]. apply andb_prop in H as [Ht Hd].
  rewrite Ht. cbn.
  destruct (TaskStatus_of_value s) as [st|] eqn:Es; [|discriminate].
  apply TaskStatus_value_of_value in Es.
  destruct d as [d|]; cbn in *.
  - rewrite Hd. cbn. eexists; split; [reflexivity|].
    unfold row_of_task, task_ok; cbn. rewrite Es, Ht, Hd. now split.
  - eexists; split; [reflexivity|].
    unfold row_of_task, task_ok; cbn. rewrite Es, Ht. now split.
Qed.

Lemma row_to_task_inv (r : Row) (t : Task) :
  row_to_task r = inr t ->
  row_ok r = true /\ row_of_task t = r /\ task_ok t = true.
Proof.
  intros H.
  destruct (row_ok r) eqn:Hok.
  - destruct (row_to_task_ok r Hok) as (t' & Ht' & Hr & Hv).
    rewrite H in Ht'. injection Ht' as ->. now repeat split.
  - exfalso. revert H Hok.
    unfold row_ok, row_to_task, Task_init, check_title, check_description,
      check_status.
    destruct r as [i ti d s c u]; cbn.
    destruct (title_ok ti); cbn; [|discriminate].
    destruct d as [d|]; cbn.
    + destruct (description_ok d); cbn; [|discriminate].
      destruct (TaskStatus_of_value s); cbn; discriminate.
    + destruct (TaskStatus_of_value s); cbn; discriminate.
Qed.

(** The row determines the task up to the awareness of its timestamps. *)
Lemma row_of_task_inj (t1 t2 : Task) :
  row_of_task t1 = row_of_task t2 -> read_back t1 = read_back t2.
Proof.
  destruct t1 as [i1 ti1 d1 s1 c1 u1], t2 as [i2 ti2 d2 s2 c2 u2].
  unfold row_of_task, read_back; cbn. intros [= -> -> -> Hs -> ->].
  f_equal. destruct s1, s2; cbn in Hs; congruence.
Qed.

(** A task built from a row has aware timestamps. *)
Lemma row_to_task_read_back (r : Row) (t : Task) :
  row_to_task r = inr t -> read_back t = t.
Proof.
  unfold row_to_task, Task_init, check_title, check_description, check_status.
  destruct r as [i ti d s c u]; cbn. unfold bind, ret, raise.
  destruct (title_ok ti); [|discriminate].
  destruct d as [d|]; cbn.
  - destruct (description_ok d); [|discriminate].
    destruct (TaskStatus_of_value s); [|discriminate].
    now intros [= <-].
  - destruct (TaskStatus_of_value s); [|discriminate].
    now intros [= <-].
Qed.

Lemma row_of_task_read_back (t : Task) :
  row_of_task (read_back t) = row_of_task t.
Proof. reflexivity. Qed.

(* ===================================================================== *)
(** ** One call to the service                                           *)
(* ===================================================================== *)

Section calls.

Variable bc : BigQueryClient.

(** A call the script fails raises into the handler and changes nothing
    but the log. *)
Lemma run_bigquery_query_fault c q params e :
  next_fault c = Some e ->
  run_bigquery_query bc c q params = (after_call c q params (table c), inl e).
Proof.
  intros H. unfold run_bigquery_query, client_query. now rewrite H.
Qed.

Lemma get_task_fault c task_id e :
  next_fault c = Some e ->
  get_task bc c task_id
  = (after_call c (get_task_query bc) [task_id_param task_id] (table c),
     inl (get_task_except e)).
Proof.
  intros H. unfold get_task. now rewrite (run_bigquery_query_fault _ _ _ e H).
Qed.

(** A served [get_task]: the SELECT returns the rows whose id matches, in
    table order, and the handler continues with them. *)
Lemma get_task_served c task_id :
  next_fault c = None ->
  get_task bc c task_id
  = (after_call c (get_task_query bc) [task_id_param task_id] (table c),
     try_except (get_task_body (filter (id_is task_id) (table c)))
                get_task_except).
Proof.
  intros H. unfold get_task, run_bigquery_query, client_query, execute.
  rewrite H, parse_get_task_query. reflexivity.
Qed.

End calls.

(* ===================================================================== *)
(** ** GET /tasks/{task_id}                                               *)
(* ===================================================================== *)

Lemma get_task_body_nil :
  get_task_body [] = inl (HTTPException 404 "Task not found").
Proof. reflexivity. Qed.

Lemma get_task_body_cons (r : Row) (rs : list Row) :
  get_task_body (r :: rs) = row_to_task r.
Proof. reflexivity. Qed.

Lemma row_to_task_raises (r : Row) (e : exn) :
  row_to_task r = inl e -> e = ValidationError.
Proof.
  unfold row_to_task, Task_init, check_title, check_description, check_status.
  destruct r as [i ti d s c u]; cbn.
  unfold bind, ret, raise.
  destruct (title_ok ti); [|congruence].
  destruct d as [d|]; cbn.
  - destruct (description_ok d); [|congruence].
    destruct (TaskStatus_of_value s); congruence.
  - destruct (TaskStatus_of_value s); congruence.
Qed.

(** A served [get_task] whose SELECT finds a first row that satisfies the
    model returns the task built from that row. *)
Lemma get_task_first_row (bc : BigQueryClient) (c : Client)
  (task_id : string) (r : Row) (rs : list Row) :
  next_fault c = None ->
  filter (id_is task_id) (table c) = r :: rs ->
  row_ok r = true ->
  exists t, row_to_task r = inr t /\ row_of_task t = r /\
            snd (get_task bc c task_id) = inr t.
Proof.
  intros H E Hok. rewrite (get_task_served bc c task_id H). cbn [snd].
  rewrite E, get_task_body_cons.
  destruct (row_to_task_ok r Hok) as (t & Ht & Hr & _).
  exists t. rewrite Ht. now repeat split.
Qed.

(** C3. With the SELECT served, [get_task] answers 404 exactly when no row
    of the table has the requested id; when some row has it and the first
    such row satisfies the model (as every row the handlers write does),
    the answer is 200 with the task built from that row. *)
Theorem get_task_404_iff_no_row (bc : BigQueryClient) (c : Client)
  (task_id : string) :
  next_fault c = None ->
  (http_status (snd (get_task bc c task_id)) = 404
   <-> filter (id_is task_id) (table c) = []) /\
  (forall r rs, filter (id_is task_id) (table c) = r :: rs ->
     row_ok r = true ->
     exists t, row_to_task r = inr t /\ row_of_task t = r /\
               snd (get_task bc c task_id) = inr t /\
               http_status (snd (get_task bc c task_id)) = 200).
Proof.
  intros H. split.
  - rewrite (get_task_served bc c task_id H). cbn [snd].
    destruct (filter (id_is task_id) (table c)) as [|r rs] eqn:E.
    + now split.
    + rewrite get_task_body_cons. split; [|discriminate].
      destruct (row_to_task r) as [e|t] eqn:Er; cbn; [|discriminate].
      apply row_to_task_raises in Er. subst e. cbn. discriminate.
  - intros r rs E Hok.
    destruct (get_task_first_row bc c task_id r rs H E Hok)
      as (t & Ht & Hr & Hg).
    exists t. rewrite Hg. now repeat split.
Qed.

Lemma get_task_404_iff_no_row_witness :
  next_fault sample_store = None /\
  (http_status (snd (get_task sample_client sample_store "zz")) = 404
   <-> filter (id_is "zz") (table sample_store) = []).
Proof.
  split; [reflexivity|].
  apply (get_task_404_iff_no_row sample_client sample_store "zz").
  reflexivity.
Defined.

(** The SELECT failing with [NotFound] is answered with 404 as well,
    whatever the table holds: the equivalence above is about served
    calls. *)
Example get_task_datastore_not_found :
  snd (get_task sample_client
         {| table := table sample_store; faults := [Some NotFound]; log := [] |}
         "a")
  = inl (HTTPException 404 "Task not found").
Proof. reflexivity. Qed.

(** A row outside the model, which no handler writes, fails the
    validation of [Task] and is answered by the last [except] clause. *)
Example get_task_row_outside_model :
  snd (get_task sample_client
         {| table := [{| row_id := "x"; row_title := "t";
                         row_description := None; row_status := "archived";
                         row_created_at := 1; row_updated_at := 1 |}];
            faults := []; log := [] |}
         "x")
  = inl (HTTPException 500 "Failed to fetch task").
Proof. reflexivity. Qed.

(** C10. [results[0]] is never taken from an empty result: the empty
    result raises the 404 first, a non-empty one yields its first row, and
    [IndexError] is not among the outcomes.  When several rows carry the
    requested id and the first of them satisfies the model, [get_task]
    answers 200 with the task built from the first. *)
Theorem get_task_first_row_safe (bc : BigQueryClient) (c : Client)
  (task_id : string) (r : Row) (rs : list Row) :
  next_fault c = None ->
  filter (id_is task_id) (table c) = r :: rs ->
  row_ok r = true ->
  (forall results : list Row,
     get_task_body results <> inl IndexError /\
     (results = [] ->
      get_task_body results = inl (HTTPException 404 "Task not found")) /\
     (forall r0 rest, results = r0 :: rest ->
        list_getitem results 0 = inr r0 /\
        get_task_body results = row_to_task r0)) /\
  exists t, row_to_task r = inr t /\
            snd (get_task bc c task_id) = inr t /\
            http_status (snd (get_task bc c task_id)) = 200.
Proof.
  intros H E Hok. split.
  - intros results. split; [|split].
    + destruct results as [|r0 rest]; [discriminate|].
      rewrite get_task_body_cons. intros Hr.
      apply row_to_task_raises in Hr. discriminate.
    + now intros ->.
    + intros r0 rest ->. now split.
  - destruct (get_task_first_row bc c task_id r rs H E Hok)
      as (t & Ht & _ & Hg).
    exists t. rewrite Hg. now repeat split.
Qed.

Lemma get_task_first_row_safe_witness :
  exists t, row_to_task (sample_row "a" 10) = inr t /\
            snd (get_task sample_client sample_store "a") = inr t /\
            http_status (snd (get_task sample_client sample_store "a")) = 200.
Proof.
  apply (get_task_first_row_safe sample_client sample_store "a"
           (sample_row "a" 10) [sample_row "a" 30]); reflexivity.
Defined.

(** An answer of [get_task] that is a task comes from a served SELECT
    whose first row it was built from. *)
Lemma get_task_inr_inv (bc : BigQueryClient) (c c1 : Client)
  (task_id : string) (t : Task) :
  get_task bc c task_id = (c1, inr t) ->
  next_fault c = None /\
  c1 = after_call c (get_task_query bc) [task_id_param task_id] (table c) /\
  exists r rs, filter (id_is task_id) (table c) = r :: rs /\
               row_to_task r = inr t.
Proof.
  intros H.
  destruct (next_fault c) as [e|] eqn:Hf.
  - rewrite (get_task_fault bc c task_id e Hf) in H. discriminate.
  - rewrite (get_task_served bc c task_id Hf) in H.
    injection H as Hc Hr. split; [reflexivity|]. split; [now subst|].
    destruct (filter (id_is task_id) (table c)) as [|r rs]; [discriminate|].
    exists r, rs. split; [reflexivity|].
    rewrite get_task_body_cons in Hr.
    destruct (row_to_task r); [discriminate|]. now injection Hr as ->.
Qed.

Lemma filter_head_holds {A} (f : A -> bool) (l : list A) (x : A) (xs : list A) :
  filter f l = x :: xs -> f x = true.
Proof.
  intros H.
  assert (Hin : In x (filter f l)) by (rewrite H; now left).
  now apply filter_In in Hin.
Qed.

Lemma get_task_inr_task (bc : BigQueryClient) (c c1 : Client)
  (task_id : string) (t : Task) :
  get_task bc c task_id = (c1, inr t) ->
  id t = task_id /\ task_ok t = true /\ table c1 = table c.
Proof.
  intros H. apply get_task_inr_inv in H as (_ & -> & r & rs & E & Hr).
  apply row_to_task_inv in Hr as (_ & Hrow & Hok).
  apply filter_head_holds in E. unfold id_is in E.
  apply String.eqb_eq in E. rewrite <- Hrow in E. cbn in E.
  now repeat split.
Qed.

(* ===================================================================== *)
(** ** PUT /tasks/{task_id}                                               *)
(* ===================================================================== *)

Lemma check_title_inr (v : pyval) (s : string) :
  check_title v = inr s -> title_ok s = true.
Proof.
  unfold check_title, bind.
  destruct (check_str v) as [e|s']; [discriminate|].
  destruct (title_ok s') eqn:E; [|discriminate]. now intros [= <-].
Qed.

Lemma check_description_inr (v : pyval) (d : option string) :
  check_description v = inr d -> optional_ok d = true.
Proof.
  unfold check_description, bind.
  assert (G : forall s, (if description_ok s then ret (Some s)
                         else raise ValidationError) = inr d ->
                        optional_ok d = true).
  { intros s. destruct (description_ok s) eqn:E; [|discriminate].
    now intros [= <-]. }
  destruct v; cbn; try apply G; try discriminate.
  now intros [= <-].
Qed.

Lemma TaskUpdate_validate_ok (b : Body) (u : TaskUpdate) :
  TaskUpdate_validate b = inr u -> update_ok u = true.
Proof.
  unfold TaskUpdate_validate, bind.
  destruct (field_default None (check_optional check_title) (body_title b))
    as [e|t] eqn:Et; [discriminate|].
  destruct (field_default None check_description (body_description b))
    as [e|d] eqn:Ed; [discriminate|].
  destruct (field_default None (check_optional check_status) (body_status b))
    as [e|s]; [discriminate|].
  intros [= <-]. unfold update_ok; cbn.
  apply andb_true_intro. split.
  - destruct t as [t|]; [|reflexivity].
    destruct (body_title b) as [j|]; [|discriminate].
    cbn in Et. unfold check_optional, bind in Et.
    destruct (pyval_of_json j) eqn:Ej; try discriminate;
      destruct (check_title _) eqn:Ec in Et; try discriminate;
      injection Et as ->; now apply check_title_inr in Ec.
  - destruct (body_description b) as [j|]; cbn in Ed.
    + now apply check_description_inr in Ed.
    + now injection Ed as <-.
Qed.

Lemma update_task_fields_nonempty (u : TaskUpdate) (now : datetime) :
  is_empty (update_task_fields u now) = false.
Proof. destruct u as [[t|] [d|] [s|]]; reflexivity. Qed.

Lemma update_task_fields_updated_at (u : TaskUpdate) (now : datetime) :
  dict_getitem (update_task_fields u now) "updated_at" = inr (VDatetime (naive now)).
Proof. destruct u as [[t|] [d|] [s|]]; reflexivity. Qed.

Lemma update_task_fields_title (u : TaskUpdate) (now : datetime) (v : pyval) :
  dict_get (update_task_fields u now) "title" v
  = match update_title u with Some t => VStr t | None => v end.
Proof. destruct u as [[t|] [d|] [s|]]; reflexivity. Qed.

Lemma update_task_fields_description (u : TaskUpdate) (now : datetime) (v : pyval) :
  dict_get (update_task_fields u now) "description" v
  = match update_description u with Some d => VStr d | None => v end.
Proof. destruct u as [[t|] [d|] [s|]]; reflexivity. Qed.

(** The response the handler builds after the UPDATE passes validation and
    is the merge. *)
Lemma update_task_response (prior : Task) (u : TaskUpdate) (now : datetime) :
  task_ok prior = true -> update_ok u = true ->
  Task_init (VStr (id prior))
            (match update_title u with
             | Some t => VStr t
             | None => VStr (title prior)
             end)
            (match update_description u with
             | Some d => VStr d
             | None => VOpt (description prior)
             end)
            (VEnum (match update_status u with
                    | Some s => s
                    | None => status prior
                    end))
            (VDatetime (created_at prior))
            (VDatetime (naive now))
  = inr (merged prior u now).
Proof.
  unfold task_ok, update_ok, merged, Task_init, check_title, check_description.
  destruct prior as [i ti de st cr up], u as [ut ud us]; cbn.
  intros Hp Hu.
  apply andb_prop in Hp as [Hti Hde]. apply andb_prop in Hu as [Hut Hud].
  destruct ut as [ut|]; cbn; [rewrite Hut | rewrite Hti]; cbn;
    (destruct ud as [ud|]; cbn in *;
     [rewrite Hud; reflexivity
     | destruct de as [de|]; cbn in *; [rewrite Hde|]; reflexivity]).
Qed.

Section update.

Variable bc : BigQueryClient.

(** The UPDATE the handler sends rewrites the rows with the requested id
    to their merge with the request and leaves every other row alone. *)
Lemma execute_update_task (rows : list Row) (task_id : string)
  (u : TaskUpdate) (now : datetime) :
  execute (get_full_table_id bc) rows
          (update_task_query bc (update_task_fields u now))
          (update_task_params task_id (update_task_fields u now))
  = inr (map (fun r => if id_is task_id r then merged_row u now r else r) rows,
         []).
Proof.
  unfold execute. rewrite parse_update_task_query.
  destruct u as [[t|] [d|] [s|]]; reflexivity.
Qed.

(** [update_task] once the existence check has returned the stored task:
    one more call, the UPDATE, whatever the request holds. *)
Lemma update_task_after_get (c c1 : Client) (task_id : string)
  (u : TaskUpdate) (now : datetime) (prior : Task) :
  get_task bc c task_id = (c1, inr prior) ->
  update_ok u = true ->
  let q := update_task_query bc (update_task_fields u now) in
  let params := update_task_params task_id (update_task_fields u now) in
  update_task bc c task_id u now
  = match next_fault c1 with
    | Some e => (after_call c1 q params (table c1), inl (update_task_except e))
    | None =>
        (after_call c1 q params
           (map (fun r => if id_is task_id r then merged_row u now r else r)
                (table c1)),
         inr (merged prior u now))
    end.
Proof.
  intros Hg Hu q params. subst q params. unfold update_task. rewrite Hg.
  rewrite update_task_fields_nonempty.
  unfold run_bigquery_query, client_query.
  destruct (next_fault c1) as [e|]; [reflexivity|].
  rewrite execute_update_task. cbn [try_except bind].
  rewrite update_task_fields_updated_at. cbn [bind].
  rewrite update_task_fields_title, update_task_fields_description.
  destruct (get_task_inr_task bc c c1 task_id prior Hg) as (Hid & Hok & _).
  rewrite <- Hid. now rewrite (update_task_response prior u now Hok Hu).
Qed.

End update.

(** How the validated [TaskUpdate] reads the body: a string is taken, an
    absent key and a [null] both give [None]. *)
Lemma TaskUpdate_validate_fields (b : Body) (u : TaskUpdate) :
  TaskUpdate_validate b = inr u ->
  update_title u = match body_title b with
                   | Some (JString s) => Some s
                   | _ => None
                   end /\
  update_description u = match body_description b with
                         | Some (JString s) => Some s
                         | _ => None
                         end /\
  match body_status b with
  | Some (JString v) =>
      exists s, update_status u = Some s /\ TaskStatus_value s = v
  | _ => update_status u = None
  end.
Proof.
  unfold TaskUpdate_validate, bind.
  destruct (field_default None (check_optional check_title) (body_title b))
    as [e|t] eqn:Et; [discriminate|].
  destruct (field_default None check_description (body_description b))
    as [e|d] eqn:Ed; [discriminate|].
  destruct (field_default None (check_optional check_status) (body_status b))
    as [e|s] eqn:Es; [discriminate|].
  intros [= <-]. cbn. split; [|split].
  - destruct (body_title b) as [[|x]|]; cbn in Et; try now injection Et as <-.
    unfold check_optional, check_title, bind in Et. cbn in Et.
    destruct (title_ok x); [|discriminate]. now injection Et as <-.
  - destruct (body_description b) as [[|x]|]; cbn in Ed;
      try now injection Ed as <-.
    unfold bind in Ed. destruct (description_ok x); [|discriminate].
    now injection Ed as <-.
  - destruct (body_status b) as [[|x]|]; cbn in Es; try now injection Es as <-.
    unfold bind in Es.
    destruct (TaskStatus_of_value x) as [st|] eqn:Ex; [|discriminate].
    injection Es as <-. exists st. split; [reflexivity|].
    now apply TaskStatus_value_of_value.
Qed.

Lemma PUT_tasks_valid (bc : BigQueryClient) (c : Client) (task_id : string)
  (b : Body) (u : TaskUpdate) (now : datetime) :
  TaskUpdate_validate b = inr u ->
  PUT_tasks bc c task_id b now = update_task bc c task_id u now.
Proof. intros H. unfold PUT_tasks. now rewrite H. Qed.

(** C1. For a stored task and an accepted PUT body, a returned task is the
    merge of the two: a supplied title, description or status is the one of
    the body, an absent one is the stored one, [created_at] is the stored
    one and [updated_at] is the time of the update; the task is returned
    whenever the UPDATE is served.  After a body with only
    [status = "completed"], title and description are the stored ones and
    [updated_at] exceeds the stored one if the clock has advanced. *)
Theorem update_task_returns_merge (bc : BigQueryClient) (c c1 : Client)
  (task_id : string) (b : Body) (u : TaskUpdate) (now : datetime)
  (prior : Task) :
  get_task bc c task_id = (c1, inr prior) ->
  TaskUpdate_validate b = inr u ->
  let t := merged prior u now in
  (forall c2 t', PUT_tasks bc c task_id b now = (c2, inr t') -> t' = t) /\
  (next_fault c1 = None ->
   exists c2, PUT_tasks bc c task_id b now = (c2, inr t)) /\
  ((forall s, body_title b = Some (JString s) -> title t = s) /\
   (body_title b = None -> title t = title prior)) /\
  ((forall s, body_description b = Some (JString s) -> description t = Some s) /\
   (body_description b = None -> description t = description prior)) /\
  ((forall v, body_status b = Some (JString v) -> TaskStatus_value (status t) = v) /\
   (body_status b = None -> status t = status prior)) /\
  created_at t = created_at prior /\
  updated_at t = naive now /\
  (body_title b = None -> body_description b = None ->
   body_status b = Some (JString "completed") ->
   title t = title prior /\ description t = description prior /\
   status t = COMPLETED /\
   ((instant (updated_at prior) < now)%Z ->
    (instant (updated_at prior) < instant (updated_at t))%Z)).
Proof.
  intros Hg Hv t.
  pose proof (TaskUpdate_validate_ok b u Hv) as Hu.
  pose proof (update_task_after_get bc c c1 task_id u now prior Hg Hu) as Hup.
  cbv zeta in Hup.
  destruct (TaskUpdate_validate_fields b u Hv) as (Ht & Hd & Hs).
  rewrite (PUT_tasks_valid bc c task_id b u now Hv).
  split; [|split; [|split; [|split; [|split; [|split; [|split]]]]]].
  - intros c2 t'. rewrite Hup.
    destruct (next_fault c1); [discriminate|]. now intros [= _ <-].
  - intros Hf. rewrite Hup, Hf. eexists. reflexivity.
  - subst t; cbn. rewrite Ht. split; [intros s -> | intros ->]; reflexivity.
  - subst t; cbn. rewrite Hd. split; [intros s -> | intros ->]; reflexivity.
  - subst t; cbn. split.
    + intros v Hb. rewrite Hb in Hs. destruct Hs as (s & -> & Hval). exact Hval.
    + intros Hb. rewrite Hb in Hs. now rewrite Hs.
  - reflexivity.
  - reflexivity.
  - intros Hbt Hbd Hbs. subst t; cbn.
    rewrite Ht, Hd, Hbt, Hbd. rewrite Hbs in Hs.
    destruct Hs as (s & -> & Hval).
    repeat split; trivial.
    destruct s; cbn in Hval; try discriminate; reflexivity.
Qed.

Lemma update_task_returns_merge_witness :
  exists c2,
    PUT_tasks sample_client sample_store "b" (only_status "completed") 25
    = (c2, inr {| id := "b"; title := "write report"; description := None;
                  status := COMPLETED; created_at := utc 20;
                  updated_at := naive 25 |}).
Proof.
  refine (proj1 (proj2
    (update_task_returns_merge sample_client sample_store
       (fst (get_task sample_client sample_store "b")) "b"
       (only_status "completed")
       {| update_title := None; update_description := None;
          update_status := Some COMPLETED |}
       25
       {| id := "b"; title := "write report"; description := None;
          status := PENDING; created_at := utc 20; updated_at := utc 20 |}
       _ _)) _); reflexivity.
Defined.

(** The calls of [update_task] after a successful existence check, for any
    request: exactly one more, the UPDATE. *)
Lemma update_task_calls (bc : BigQueryClient) (c c1 : Client)
  (task_id : string) (u : TaskUpdate) (now : datetime) (prior : Task) :
  get_task bc c task_id = (c1, inr prior) ->
  fst (update_task bc c task_id u now)
  = after_call c1 (update_task_query bc (update_task_fields u now))
      (update_task_params task_id (update_task_fields u now))
      (match next_fault c1 with
       | Some _ => table c1
       | None => map (fun r => if id_is task_id r then merged_row u now r else r)
                     (table c1)
       end).
Proof.
  intros Hg. unfold update_task. rewrite Hg, update_task_fields_nonempty.
  unfold run_bigquery_query, client_query.
  destruct (next_fault c1); [reflexivity|].
  now rewrite execute_update_task.
Qed.

Lemma update_task_fields_keys (u : TaskUpdate) (now : datetime) :
  dict_keys (update_task_fields u now)
  = (match update_title u with Some _ => ["title"] | None => [] end) ++
    (match update_description u with Some _ => ["description"] | None => [] end) ++
    (match update_status u with Some _ => ["status"] | None => [] end) ++
    ["updated_at"].
Proof. destruct u as [[t|] [d|] [s|]]; reflexivity. Qed.

(** C4. After a successful existence check the UPDATE is always sent, and
    its SET clause always assigns [updated_at], bound to the time of the
    update, also for a body without any field; the call that is served
    returns a task, and every row with the requested id then carries the
    new [updated_at]. *)
Theorem update_task_always_refreshes (bc : BigQueryClient) (c c1 : Client)
  (task_id : string) (b : Body) (u : TaskUpdate) (now : datetime)
  (prior : Task) :
  get_task bc c task_id = (c1, inr prior) ->
  TaskUpdate_validate b = inr u ->
  let uf := update_task_fields u now in
  let c2 := fst (PUT_tasks bc c task_id b now) in
  let r := snd (PUT_tasks bc c task_id b now) in
  log c2 = log c1 ++ [(update_task_query bc uf, update_task_params task_id uf)] /\
  parse_statement (get_full_table_id bc) (update_task_query bc uf)
  = Some (SUpdate (map (fun k => (k, k)) (dict_keys uf))) /\
  In "updated_at" (dict_keys uf) /\
  In "updated_at = @updated_at" (split_comma (set_clause_of uf)) /\
  In {| name := "updated_at"; type_ := "TIMESTAMP"; value := VDatetime (naive now) |}
     (update_task_params task_id uf) /\
  (b = empty_body -> set_clause_of uf = "updated_at = @updated_at") /\
  (next_fault c1 = None -> exists t, r = inr t) /\
  (forall t, r = inr t ->
     updated_at t = naive now /\
     (exists row, In row (table c2) /\ row_id row = task_id) /\
     (forall row, In row (table c2) -> row_id row = task_id ->
        row_updated_at row = now)).
Proof.
  intros Hg Hv uf c2 r.
  pose proof (TaskUpdate_validate_ok b u Hv) as Hu.
  pose proof (update_task_after_get bc c c1 task_id u now prior Hg Hu) as Hup.
  cbv zeta in Hup.
  assert (Hput : PUT_tasks bc c task_id b now = update_task bc c task_id u now)
    by (now apply PUT_tasks_valid).
  split; [|split; [|split; [|split; [|split; [|split; [|split]]]]]].
  - subst c2. rewrite Hput, (update_task_calls bc c c1 task_id u now prior Hg).
    reflexivity.
  - apply parse_update_task_query.
  - subst uf. rewrite update_task_fields_keys.
    rewrite !in_app_iff. right. right. right. now left.
  - subst uf. destruct u as [[t|] [d|] [s|]]; cbn; tauto.
  - subst uf. destruct u as [[t|] [d|] [s|]]; cbn; tauto.
  - intros ->. cbn in Hv. injection Hv as <-. reflexivity.
  - intros Hf. subst r. rewrite Hput, Hup, Hf. eexists. reflexivity.
  - intros t Hr. subst r c2. rewrite Hput in *. rewrite Hup in *.
    destruct (next_fault c1) as [e|]; [discriminate|].
    cbn [fst snd after_call table] in *. injection Hr as <-.
    split; [reflexivity|].
    destruct (get_task_inr_inv bc c c1 task_id prior Hg)
      as (_ & Hc1 & r0 & rs & E & _).
    assert (Ht1 : table c1 = table c) by now subst c1.
    split.
    + exists (merged_row u now r0). split; [|].
      * apply in_map_iff. exists r0.
        pose proof (filter_head_holds _ _ _ _ E) as Hid. rewrite Hid.
        split; [reflexivity|].
        rewrite Ht1.
        assert (Hin : In r0 (filter (id_is task_id) (table c)))
          by (rewrite E; now left).
        now apply filter_In in Hin.
      * cbn. apply filter_head_holds in E. now apply String.eqb_eq in E.
    + intros row Hin Hid. apply in_map_iff in Hin as (r' & <- & _).
      destruct (id_is task_id r') eqn:Er; [reflexivity|].
      unfold id_is in Er. apply String.eqb_neq in Er. contradiction.
Qed.

Lemma update_task_always_refreshes_witness :
  log (fst (PUT_tasks sample_client sample_store "b" empty_body 25))
  = log (fst (get_task sample_client sample_store "b")) ++
    [(update_task_query sample_client [("updated_at", VDatetime (naive 25))],
      [task_id_param "b";
       {| name := "updated_at"; type_ := "TIMESTAMP"; value := VDatetime (naive 25) |}])].
Proof.
  refine (proj1
    (update_task_always_refreshes sample_client sample_store
       (fst (get_task sample_client sample_store "b")) "b" empty_body
       {| update_title := None; update_description := None;
          update_status := None |}
       25
       {| id := "b"; title := "write report"; description := None;
          status := PENDING; created_at := utc 20; updated_at := utc 20 |}
       _ _)); reflexivity.
Defined.

(* ===================================================================== *)
(** ** The existence check of PUT and DELETE                              *)
(* ===================================================================== *)

(** Whatever [get_task] raises leaves [update_task] and [delete_task]
    as it is, with the service as [get_task] left it. *)
Lemma existence_check_propagates (bc : BigQueryClient) (c c1 : Client)
  (task_id : string) (e : exn) :
  get_task bc c task_id = (c1, inl e) ->
  (forall u now, update_task bc c task_id u now = (c1, inl e)) /\
  delete_task bc c task_id = (c1, inl e).
Proof.
  intros H. split; [intros u now; unfold update_task | unfold delete_task];
    now rewrite H.
Qed.

(** C5. When no row has the requested id, PUT and DELETE end at the
    existence check: both raise the very 404 [get_task] raised, the only
    call the service received is the SELECT of the check, and the table is
    the one from before the request. *)
Theorem update_delete_absent_404 (bc : BigQueryClient) (c : Client)
  (task_id : string) (u : TaskUpdate) (now : datetime) :
  next_fault c = None ->
  filter (id_is task_id) (table c) = [] ->
  let c1 := fst (get_task bc c task_id) in
  let e := HTTPException 404 "Task not found" in
  snd (get_task bc c task_id) = inl e /\
  update_task bc c task_id u now = (c1, inl e) /\
  delete_task bc c task_id = (c1, inl e) /\
  table c1 = table c /\
  log c1 = log c ++ [(get_task_query bc, [task_id_param task_id])] /\
  parse_statement (get_full_table_id bc) (get_task_query bc) = Some SSelectOne.
Proof.
  intros Hf E c1 e.
  assert (Hg : get_task bc c task_id = (c1, inl e)).
  { subst c1. rewrite (get_task_served bc c task_id Hf), E. reflexivity. }
  destruct (existence_check_propagates bc c c1 task_id e Hg) as [Hu Hd].
  split; [now rewrite Hg|]. split; [apply Hu|]. split; [exact Hd|].
  subst c1. rewrite (get_task_served bc c task_id Hf). cbn.
  repeat split. apply parse_get_task_query.
Qed.

Lemma update_delete_absent_404_witness :
  update_task sample_client sample_store "zz"
    {| update_title := Some "x"; update_description := None;
       update_status := None |} 25
  = (fst (get_task sample_client sample_store "zz"),
     inl (HTTPException 404 "Task not found")).
Proof.
  refine (proj1 (proj2
    (update_delete_absent_404 sample_client sample_store "zz"
       {| update_title := Some "x"; update_description := None;
          update_status := None |} 25 _ _))); reflexivity.
Defined.

(* ===================================================================== *)
(** ** Null fields and the frame of an update                            *)
(* ===================================================================== *)

Lemma TaskUpdate_validate_drop_nulls (b : Body) :
  TaskUpdate_validate (drop_nulls b) = TaskUpdate_validate b.
Proof.
  destruct b as [[[|t]|] [[|d]|] [[|s]|]]; reflexivity.
Qed.

Lemma merged_row_frame (u : TaskUpdate) (now : datetime) (r : Row)
  (col : string) :
  ~ In col (dict_keys (update_task_fields u now)) ->
  row_column (merged_row u now r) col = row_column r col.
Proof.
  rewrite update_task_fields_keys. unfold row_column, merged_row.
  intros Hnot.
  destruct (String.eqb_spec col "id"); [reflexivity|].
  destruct (String.eqb_spec col "title") as [->|].
  { destruct (update_title u); [|reflexivity].
    exfalso. apply Hnot. now left. }
  destruct (String.eqb_spec col "description") as [->|].
  { destruct (update_description u); [|reflexivity].
    exfalso. apply Hnot. rewrite !in_app_iff. right. left. now left. }
  destruct (String.eqb_spec col "status") as [->|].
  { destruct (update_status u); [|reflexivity].
    exfalso. apply Hnot. rewrite !in_app_iff. right. right. left. now left. }
  destruct (String.eqb_spec col "created_at"); [reflexivity|].
  destruct (String.eqb_spec col "updated_at") as [->|]; [|reflexivity].
  exfalso. apply Hnot. rewrite !in_app_iff. right. right. right. now left.
Qed.

(** C9. A [null] in a PUT body is read as an absent key: the validated
    request, and so the whole answer, is the one of the body without it;
    the field is not in the SET clause, no parameter of the UPDATE is
    bound to NULL, and the stored value stays.  The served UPDATE rewrites
    the rows with the requested id to their merge with the request: the
    columns outside the SET clause keep their values, a description that
    was set stays set, and the other rows are untouched. *)
Theorem update_null_is_absent (bc : BigQueryClient) (c c1 : Client)
  (task_id : string) (b : Body) (u : TaskUpdate) (now : datetime)
  (prior : Task) :
  get_task bc c task_id = (c1, inr prior) ->
  TaskUpdate_validate b = inr u ->
  next_fault c1 = None ->
  let uf := update_task_fields u now in
  TaskUpdate_validate (drop_nulls b) = inr u /\
  PUT_tasks bc c task_id (drop_nulls b) now = PUT_tasks bc c task_id b now /\
  (body_title b = Some JNull ->
   ~ In "title" (dict_keys uf) /\
   forall r, row_title (merged_row u now r) = row_title r) /\
  (body_description b = Some JNull ->
   ~ In "description" (dict_keys uf) /\
   forall r, row_description (merged_row u now r) = row_description r) /\
  (body_status b = Some JNull ->
   ~ In "status" (dict_keys uf) /\
   forall r, row_status (merged_row u now r) = row_status r) /\
  (forall p, In p (update_task_params task_id uf) -> value p <> VNone) /\
  table (fst (PUT_tasks bc c task_id b now))
  = map (fun r => if id_is task_id r then merged_row u now r else r) (table c) /\
  (forall r col, ~ In col (dict_keys uf) ->
     row_column (merged_row u now r) col = row_column r col) /\
  (forall r, row_description r <> None ->
     row_description (merged_row u now r) <> None).
Proof.
  intros Hg Hv Hf uf.
  destruct (TaskUpdate_validate_fields b u Hv) as (Ht & Hd & Hs).
  split; [now rewrite TaskUpdate_validate_drop_nulls|].
  split.
  { unfold PUT_tasks. now rewrite TaskUpdate_validate_drop_nulls. }
  split; [|split; [|split]].
  - intros Hb. rewrite Hb in Ht. subst uf. rewrite update_task_fields_keys, Ht.
    unfold merged_row. rewrite Ht. cbn. split; [|reflexivity].
    destruct (update_description u), (update_status u); cbn;
      intuition discriminate.
  - intros Hb. rewrite Hb in Hd. subst uf. rewrite update_task_fields_keys, Hd.
    unfold merged_row. rewrite Hd. cbn. split; [|reflexivity].
    destruct (update_title u), (update_status u); cbn;
      intuition discriminate.
  - intros Hb. rewrite Hb in Hs. subst uf. rewrite update_task_fields_keys, Hs.
    unfold merged_row. rewrite Hs. cbn. split; [|reflexivity].
    destruct (update_title u), (update_description u); cbn;
      intuition discriminate.
  - split.
    { intros p. subst uf. destruct u as [[t|] [d|] [s|]]; cbn;
        intuition (subst; discriminate). }
    split.
    { rewrite (PUT_tasks_valid bc c task_id b u now Hv).
      rewrite (update_task_calls bc c c1 task_id u now prior Hg), Hf.
      destruct (get_task_inr_task bc c c1 task_id prior Hg) as (_ & _ & ->).
      reflexivity. }
    split.
    { intros r col. apply merged_row_frame. }
    intros r Hr. unfold merged_row; cbn.
    destruct (update_description u); [discriminate | exact Hr].
Qed.

Lemma update_null_is_absent_witness :
  PUT_tasks sample_client sample_store "b" (drop_nulls null_title_body) 25
  = PUT_tasks sample_client sample_store "b" null_title_body 25.
Proof.
  refine (proj1 (proj2
    (update_null_is_absent sample_client sample_store
       (fst (get_task sample_client sample_store "b")) "b" null_title_body
       {| update_title := None; update_description := Some "by Friday";
          update_status := None |}
       25
       {| id := "b"; title := "write report"; description := None;
          status := PENDING; created_at := utc 20; updated_at := utc 20 |}
       _ _ _))); reflexivity.
Defined.

(* ===================================================================== *)
(** ** Query texts                                                        *)
(* ===================================================================== *)

Lemma issued_app (c c' : Client) (l : list (string * list ScalarQueryParameter)) :
  log c' = log c ++ l -> issued c c' = l.
Proof.
  unfold issued. intros ->. induction (log c) as [|x xs IH]; [reflexivity|].
  exact IH.
Qed.

Section texts.

Variable bc : BigQueryClient.

(** Every call is logged with the text and the parameters it was given. *)
Lemma run_bigquery_query_log c q params :
  log (fst (run_bigquery_query bc c q params)) = log c ++ [(q, params)].
Proof.
  unfold run_bigquery_query, client_query.
  destruct (next_fault c); [reflexivity|].
  destruct (execute _ _ _ _) as [e|[rows' res]]; reflexivity.
Qed.

Lemma create_task_issued c task uuid4 now :
  issued c (fst (create_task bc c task uuid4 now))
  = [(create_task_query bc, create_task_params task uuid4 (naive now))].
Proof.
  apply issued_app. unfold create_task.
  pose proof (run_bigquery_query_log c (create_task_query bc)
                (create_task_params task uuid4 (naive now))) as H.
  destruct (run_bigquery_query _ _ _ _). exact H.
Qed.

Lemma get_task_log c task_id :
  log (fst (get_task bc c task_id))
  = log c ++ [(get_task_query bc, [task_id_param task_id])].
Proof.
  unfold get_task.
  pose proof (run_bigquery_query_log c (get_task_query bc)
                [task_id_param task_id]) as H.
  destruct (run_bigquery_query _ _ _ _). exact H.
Qed.

Lemma get_task_issued c task_id :
  issued c (fst (get_task bc c task_id))
  = [(get_task_query bc, [task_id_param task_id])].
Proof. apply issued_app, get_task_log. Qed.

Lemma list_tasks_issued c :
  issued c (fst (list_tasks bc c)) = [(list_tasks_query bc, [])].
Proof.
  apply issued_app. unfold list_tasks.
  pose proof (run_bigquery_query_log c (list_tasks_query bc) []) as H.
  destruct (run_bigquery_query _ _ _ _). exact H.
Qed.

Lemma update_task_issued c task_id u now :
  issued c (fst (update_task bc c task_id u now))
  = (get_task_query bc, [task_id_param task_id]) ::
    match snd (get_task bc c task_id) with
    | inr _ => [(update_task_query bc (update_task_fields u now),
                 update_task_params task_id (update_task_fields u now))]
    | inl _ => []
    end.
Proof.
  apply issued_app.
  destruct (get_task bc c task_id) as [c1 [e|prior]] eqn:Hg.
  - destruct (existence_check_propagates bc c c1 task_id e Hg) as [Hu _].
    rewrite Hu. cbn [fst snd].
    rewrite <- (get_task_log c task_id). now rewrite Hg.
  - rewrite (update_task_calls bc c c1 task_id u now prior Hg).
    cbn [fst snd after_call log].
    pose proof (get_task_log c task_id) as Hl. rewrite Hg in Hl.
    cbn [fst] in Hl. rewrite Hl, <- app_assoc. reflexivity.
Qed.

Lemma delete_task_issued c task_id :
  issued c (fst (delete_task bc c task_id))
  = (get_task_query bc, [task_id_param task_id]) ::
    match snd (get_task bc c task_id) with
    | inr _ => [(delete_task_query bc, [task_id_param task_id])]
    | inl _ => []
    end.
Proof.
  apply issued_app. unfold delete_task.
  pose proof (get_task_log c task_id) as Hl.
  destruct (get_task bc c task_id) as [c1 [e|prior]]; cbn [fst snd] in *.
  - exact Hl.
  - pose proof (run_bigquery_query_log c1 (delete_task_query bc)
                  [task_id_param task_id]) as H.
    destruct (run_bigquery_query _ _ _ _). cbn [fst snd] in *.
    rewrite H, Hl, <- app_assoc. reflexivity.
Qed.

(** The UPDATE text is a function of the set of supplied fields. *)
Lemma update_task_query_same_fields u u' now now' :
  same_fields u u' ->
  update_task_query bc (update_task_fields u now)
  = update_task_query bc (update_task_fields u' now').
Proof.
  unfold update_task_query, set_clause_of. intros (Ht & Hd & Hs).
  rewrite !update_task_fields_keys.
  destruct u as [[t|] [d|] [s|]], u' as [[t'|] [d'|] [s'|]];
    cbn in Ht, Hd, Hs; try discriminate; reflexivity.
Qed.

End texts.

Lemma agree_cons (q : string) (l1 l2 : list string) :
  agree l1 l2 -> agree (q :: l1) (q :: l2).
Proof.
  intros H [|i] q1 q2; cbn.
  - congruence.
  - apply H.
Qed.

Lemma agree_nil_l (l : list string) : agree [] l.
Proof. intros [|i] q1 q2; discriminate. Qed.

Lemma agree_nil_r (l : list string) : agree l [].
Proof. intros [|i] q1 q2 _; discriminate. Qed.

Lemma agree_refl (l : list string) : agree l l.
Proof. intros i q1 q2. congruence. Qed.

(** C8. The query texts a handler sends do not depend on the title,
    description, status or id of the request: two creates, and two gets,
    send the same text; two updates that supply the same fields, and two
    deletes, send the same text at every position both reach, and the same
    texts altogether when their existence checks end alike.  The values
    travel in the bound parameters of the call. *)
Theorem query_text_noninterference (bc : BigQueryClient) :
  (forall c c' task task' uuid4 uuid4' now now',
     texts (issued c (fst (create_task bc c task uuid4 now)))
     = texts (issued c' (fst (create_task bc c' task' uuid4' now')))) /\
  (forall c c' task_id task_id',
     texts (issued c (fst (get_task bc c task_id)))
     = texts (issued c' (fst (get_task bc c' task_id')))) /\
  (forall c c' task_id task_id' u u' now now',
     same_fields u u' ->
     agree (texts (issued c (fst (update_task bc c task_id u now))))
           (texts (issued c' (fst (update_task bc c' task_id' u' now')))) /\
     (present_result (snd (get_task bc c task_id))
      = present_result (snd (get_task bc c' task_id')) ->
      texts (issued c (fst (update_task bc c task_id u now)))
      = texts (issued c' (fst (update_task bc c' task_id' u' now'))))) /\
  (forall c c' task_id task_id',
     agree (texts (issued c (fst (delete_task bc c task_id))))
           (texts (issued c' (fst (delete_task bc c' task_id')))) /\
     (present_result (snd (get_task bc c task_id))
      = present_result (snd (get_task bc c' task_id')) ->
      texts (issued c (fst (delete_task bc c task_id)))
      = texts (issued c' (fst (delete_task bc c' task_id'))))) /\
  (forall c task uuid4 now,
     map snd (issued c (fst (create_task bc c task uuid4 now)))
     = [create_task_params task uuid4 (naive now)]) /\
  (forall c task_id,
     map snd (issued c (fst (get_task bc c task_id)))
     = [[task_id_param task_id]]) /\
  (forall c task_id u now prior,
     snd (get_task bc c task_id) = inr prior ->
     map snd (issued c (fst (update_task bc c task_id u now)))
     = [[task_id_param task_id];
        update_task_params task_id (update_task_fields u now)]).
Proof.
  split; [|split; [|split; [|split; [|split; [|split]]]]].
  - intros. now rewrite !create_task_issued.
  - intros. now rewrite !get_task_issued.
  - intros c c' task_id task_id' u u' now now' Hsame.
    rewrite !update_task_issued.
    rewrite (update_task_query_same_fields bc u u' now now' Hsame).
    destruct (snd (get_task bc c task_id)),
             (snd (get_task bc c' task_id')); cbn; split;
      try discriminate; try reflexivity;
      apply agree_cons;
      auto using agree_nil_l, agree_nil_r, agree_refl.
  - intros c c' task_id task_id'.
    rewrite !delete_task_issued.
    destruct (snd (get_task bc c task_id)),
             (snd (get_task bc c' task_id')); cbn; split;
      try discriminate; try reflexivity;
      apply agree_cons;
      auto using agree_nil_l, agree_nil_r, agree_refl.
  - intros. now rewrite create_task_issued.
  - intros. now rewrite get_task_issued.
  - intros c task_id u now prior H. rewrite update_task_issued, H.
    reflexivity.
Qed.

(* ===================================================================== *)
(** ** POST /tasks/                                                       *)
(* ===================================================================== *)

Lemma TaskCreate_validate_fields (b : Body) (task : TaskCreate) :
  TaskCreate_validate b = inr task ->
  create_ok task = true /\
  body_title b = Some (JString (create_title task)) /\
  create_description task = match body_description b with
                            | Some (JString d) => Some d
                            | _ => None
                            end /\
  (body_status b = None -> create_status task = PENDING).
Proof.
  unfold TaskCreate_validate, bind.
  destruct (field_required check_title (body_title b)) as [e|t] eqn:Et;
    [discriminate|].
  destruct (field_default None check_description (body_description b))
    as [e|d] eqn:Ed; [discriminate|].
  destruct (field_default PENDING check_status (body_status b))
    as [e|s] eqn:Es; [discriminate|].
  intros [= <-]. unfold create_ok; cbn.
  assert (Ht : title_ok t = true /\ body_title b = Some (JString t)).
  { destruct (body_title b) as [[|x]|]; cbn in Et; try discriminate.
    unfold check_title, bind in Et. cbn in Et.
    destruct (title_ok x) eqn:Ex; [|discriminate]. injection Et as <-.
    now split. }
  assert (Hd : optional_ok d = true /\
               d = match body_description b with
                   | Some (JString d) => Some d
                   | _ => None
                   end).
  { destruct (body_description b) as [[|x]|]; cbn in Ed;
      try (injection Ed as <-; now split).
    unfold bind in Ed. destruct (description_ok x) eqn:Ex; [|discriminate].
    injection Ed as <-. now split. }
  destruct Ht as [Ht1 Ht2], Hd as [Hd1 Hd2].
  rewrite Ht1, Hd1. repeat split; trivial.
  intros Hb. rewrite Hb in Es. now injection Es as <-.
Qed.

Lemma created_valid (task : TaskCreate) (task_id : string) (now : datetime) :
  create_ok task = true ->
  Task_init (VStr task_id) (VStr (create_title task))
            (VOpt (create_description task)) (VEnum (create_status task))
            (VDatetime (naive now)) (VDatetime (naive now))
  = inr (created task task_id now).
Proof.
  unfold create_ok, Task_init, check_title, check_description, created.
  destruct task as [t d s]; cbn. intros H. apply andb_prop in H as [Ht Hd].
  rewrite Ht. destruct d as [d|]; cbn in *; [rewrite Hd|]; reflexivity.
Qed.

Lemma created_valid_inv (task : TaskCreate) (task_id : string)
  (now : datetime) (t : Task) :
  Task_init (VStr task_id) (VStr (create_title task))
            (VOpt (create_description task)) (VEnum (create_status task))
            (VDatetime (naive now)) (VDatetime (naive now)) = inr t ->
  create_ok task = true /\ t = created task task_id now.
Proof.
  intros H. destruct (create_ok task) eqn:Hok.
  - rewrite (created_valid task task_id now Hok) in H. now injection H as <-.
  - exfalso. revert H Hok.
    unfold create_ok, Task_init, check_title, check_description.
    destruct task as [ti d s]; cbn. unfold bind, ret, raise.
    destruct (title_ok ti); [|discriminate].
    destruct d as [d|]; cbn; [|discriminate].
    destruct (description_ok d); discriminate.
Qed.

Section create.

Variable bc : BigQueryClient.

(** The INSERT appends the row of the new task. *)
Lemma execute_create_task (rows : list Row) (task : TaskCreate)
  (task_id : string) (now : datetime) :
  execute (get_full_table_id bc) rows (create_task_query bc)
          (create_task_params task task_id (naive now))
  = inr (rows ++ [row_of_task (created task task_id now)], []).
Proof.
  unfold execute. rewrite parse_create_task_query.
  destruct task as [t [d|] s]; reflexivity.
Qed.

Lemma create_task_cases (c : Client) (task : TaskCreate) (uuid4 : string)
  (now : datetime) :
  let q := create_task_query bc in
  let params := create_task_params task uuid4 (naive now) in
  create_task bc c task uuid4 now
  = match next_fault c with
    | Some e => (after_call c q params (table c), inl (create_task_except e))
    | None =>
        (after_call c q params
           (table c ++ [row_of_task (created task uuid4 now)]),
         try_except
           (Task_init (VStr uuid4) (VStr (create_title task))
              (VOpt (create_description task)) (VEnum (create_status task))
              (VDatetime (naive now)) (VDatetime (naive now)))
           create_task_except)
    end.
Proof.
  intros q params. subst q params.
  unfold create_task, run_bigquery_query, client_query.
  change (replace_tzinfo_None (datetime_now_utc now)) with (naive now).
  destruct (next_fault c); [reflexivity|].
  now rewrite execute_create_task.
Qed.

(** A create that returned a task was served, appended the row of that
    task, and the task is the request with the id and the time filled in. *)
Lemma create_task_inr_inv (c c1 : Client) (task : TaskCreate)
  (uuid4 : string) (now : datetime) (t : Task) :
  create_task bc c task uuid4 now = (c1, inr t) ->
  next_fault c = None /\ create_ok task = true /\
  t = created task uuid4 now /\
  c1 = after_call c (create_task_query bc) (create_task_params task uuid4 (naive now))
         (table c ++ [row_of_task t]).
Proof.
  rewrite create_task_cases. cbv zeta.
  destruct (next_fault c); [discriminate|].
  intros [= <- Ht].
  destruct (Task_init _ _ _ _ _ _) as [e|t'] eqn:Ei; [discriminate|].
  apply created_valid_inv in Ei as [Hok ->]. injection Ht as <-.
  now repeat split.
Qed.

Lemma create_task_served (c : Client) (task : TaskCreate) (uuid4 : string)
  (now : datetime) :
  next_fault c = None -> create_ok task = true ->
  create_task bc c task uuid4 now
  = (after_call c (create_task_query bc) (create_task_params task uuid4 (naive now))
       (table c ++ [row_of_task (created task uuid4 now)]),
     inr (created task uuid4 now)).
Proof.
  intros Hf Hok. rewrite create_task_cases. cbv zeta.
  now rewrite Hf, (created_valid task uuid4 now Hok).
Qed.

End create.

(** C2. For an accepted create body, a returned task is the request with
    the generated id and one reading of the clock in both [created_at] and
    [updated_at]: title and description are those of the body, the status
    is [PENDING] when the body has none; the task is returned whenever the
    INSERT is served. *)
Theorem create_task_response (bc : BigQueryClient) (c : Client) (b : Body)
  (task : TaskCreate) (uuid4 : string) (now : datetime) :
  TaskCreate_validate b = inr task ->
  let t := created task uuid4 now in
  (forall c' t', POST_tasks bc c b uuid4 now = (c', inr t') -> t' = t) /\
  (next_fault c = None ->
   exists c', POST_tasks bc c b uuid4 now = (c', inr t)) /\
  created_at t = updated_at t /\
  created_at t = naive now /\
  (body_status b = None -> status t = PENDING) /\
  body_title b = Some (JString (title t)) /\
  description t = match body_description b with
                  | Some (JString d) => Some d
                  | _ => None
                  end /\
  title t = create_title task /\
  description t = create_description task /\
  status t = create_status task.
Proof.
  intros Hv t.
  destruct (TaskCreate_validate_fields b task Hv) as (Hok & Ht & Hd & Hs).
  unfold POST_tasks. rewrite Hv.
  split; [|split].
  - intros c' t' H. now apply create_task_inr_inv in H as (_ & _ & -> & _).
  - intros Hf. rewrite (create_task_served bc c task uuid4 now Hf Hok).
    eexists. reflexivity.
  - subst t; cbn. repeat split; trivial.
Qed.

Lemma create_task_response_witness :
  exists c',
    POST_tasks sample_client empty_store (title_only "buy milk") "id-1" 7
    = (c', inr {| id := "id-1"; title := "buy milk"; description := None;
                  status := PENDING; created_at := naive 7;
                  updated_at := naive 7 |}).
Proof.
  refine (proj1 (proj2
    (create_task_response sample_client empty_store (title_only "buy milk")
       {| create_title := "buy milk"; create_description := None;
          create_status := PENDING |} "id-1" 7 _)) _); reflexivity.
Defined.

(* ===================================================================== *)
(** ** Create, then get                                                   *)
(* ===================================================================== *)

(** The row of a valid task is read as that task with aware timestamps. *)
Lemma row_to_task_of_task (t : Task) :
  task_ok t = true -> row_to_task (row_of_task t) = inr (read_back t).
Proof.
  intros Hok.
  assert (Hrow : row_ok (row_of_task t) = true).
  { unfold row_ok, task_ok in *. cbn.
    now rewrite Hok, TaskStatus_of_value_value. }
  destruct (row_to_task_ok _ Hrow) as (t' & Ht' & Hr & _).
  rewrite Ht'. f_equal.
  apply row_of_task_inj in Hr.
  now rewrite (row_to_task_read_back _ _ Ht') in Hr.
Qed.

Lemma created_ok (task : TaskCreate) (task_id : string) (now : datetime) :
  create_ok task = true -> task_ok (created task task_id now) = true.
Proof. intros H. exact H. Qed.

(** C7, as the code has it.  A task returned by a create under an id no
    stored row carries is returned by a get of that id that follows the
    create and is served with the same id, title, description and status
    and with timestamps of the same instants; the two tasks are not equal,
    because the create answers with naive timestamps and the get with
    aware ones. *)
Theorem create_then_get_roundtrip (bc : BigQueryClient) (c c1 : Client)
  (task : TaskCreate) (uuid4 : string) (now : datetime) (t : Task) :
  create_task bc c task uuid4 now = (c1, inr t) ->
  filter (id_is uuid4) (table c) = [] ->
  next_fault c1 = None ->
  exists c2 t',
    get_task bc c1 (id t) = (c2, inr t') /\
    id t' = id t /\ title t' = title t /\ description t' = description t /\
    status t' = status t /\
    instant (created_at t') = instant (created_at t) /\
    instant (updated_at t') = instant (updated_at t) /\
    aware (created_at t) = false /\ aware (updated_at t) = false /\
    aware (created_at t') = true /\ aware (updated_at t') = true /\
    t' = read_back t /\ t' <> t /\ table c2 = table c1.
Proof.
  intros Hc Hfresh Hf.
  apply create_task_inr_inv in Hc as (_ & Hok & Ht & Hc1).
  assert (Hid : id t = uuid4) by now subst t.
  rewrite (get_task_served bc c1 (id t) Hf).
  assert (Htab : table c1 = table c ++ [row_of_task t]) by now subst c1.
  rewrite Htab, filter_app, Hid, Hfresh. cbn [filter app].
  assert (Hm : id_is uuid4 (row_of_task t) = true).
  { unfold id_is. cbn. rewrite Hid. apply String.eqb_refl. }
  rewrite Hm, get_task_body_cons.
  rewrite (row_to_task_of_task t)
    by (subst t; now apply created_ok).
  eexists. exists (read_back t). cbn [try_except after_call table].
  subst t. cbn. repeat split; trivial. discriminate.
Qed.

Lemma create_then_get_roundtrip_witness :
  exists c2 t',
    get_task sample_client
      (fst (create_task sample_client sample_store
              {| create_title := "buy milk"; create_description := Some "2l";
                 create_status := IN_PROGRESS |} "id-1" 40))
      "id-1" = (c2, inr t') /\
    t' = {| id := "id-1"; title := "buy milk"; description := Some "2l";
            status := IN_PROGRESS; created_at := utc 40;
            updated_at := utc 40 |}.
Proof.
  destruct (create_then_get_roundtrip sample_client sample_store
              (fst (create_task sample_client sample_store
                      {| create_title := "buy milk";
                         create_description := Some "2l";
                         create_status := IN_PROGRESS |} "id-1" 40))
              {| create_title := "buy milk"; create_description := Some "2l";
                 create_status := IN_PROGRESS |} "id-1" 40
              {| id := "id-1"; title := "buy milk"; description := Some "2l";
                 status := IN_PROGRESS; created_at := naive 40;
                 updated_at := naive 40 |}
              eq_refl eq_refl eq_refl)
    as (c2 & t' & Hg & _ & _ & _ & _ & _ & _ & _ & _ & _ & _ & Heq & _).
  exists c2, t'. split; [exact Hg | exact Heq].
Defined.

(** C7, as stated, fails: the task a get returns right after a create is
    not the task the create returned, its two timestamps are aware where
    the create's are naive. *)
Lemma create_then_get_not_equal :
  exists c1 t c2 t',
    create_task sample_client empty_store
      {| create_title := "buy milk"; create_description := None;
         create_status := PENDING |} "id-1" 40 = (c1, inr t) /\
    get_task sample_client c1 (id t) = (c2, inr t') /\
    created_at t' <> created_at t /\
    updated_at t' <> updated_at t /\
    t' <> t.
Proof.
  do 4 eexists. split; [reflexivity|]. split; [reflexivity|].
  cbn. repeat split; discriminate.
Qed.

(* ===================================================================== *)
(** ** GET /tasks/                                                        *)
(* ===================================================================== *)

Lemma insert_desc_perm (r : Row) (l : list Row) :
  Permutation (insert_desc r l) (r :: l).
Proof.
  induction l as [|x l IH]; cbn; [reflexivity|].
  destruct (row_created_at x <=? row_created_at r)%Z; [reflexivity|].
  rewrite IH. apply perm_swap.
Qed.

Lemma order_by_created_at_desc_perm (l : list Row) :
  Permutation (order_by_created_at_desc l) l.
Proof.
  induction l as [|r l IH]; cbn; [reflexivity|].
  rewrite insert_desc_perm. now constructor.
Qed.

Lemma insert_desc_sorted (r : Row) (l : list Row) :
  rows_newest_first l -> rows_newest_first (insert_desc r l).
Proof.
  unfold rows_newest_first.
  induction l as [|x l IH]; cbn; intros Hs.
  - constructor; constructor.
  - apply StronglySorted_inv in Hs as [Hl Hx].
    destruct (row_created_at x <=? row_created_at r)%Z eqn:E.
    + apply Z.leb_le in E. constructor.
      * now constructor.
      * constructor; [exact E|].
        eapply Forall_impl; [|exact Hx]. cbn. intros a Ha. lia.
    + apply Z.leb_gt in E. constructor; [now apply IH|].
      eapply Permutation_Forall.
      * symmetry. apply insert_desc_perm.
      * constructor; [lia | exact Hx].
Qed.

Lemma order_by_created_at_desc_sorted (l : list Row) :
  rows_newest_first (order_by_created_at_desc l).
Proof.
  induction l as [|r l IH]; cbn; [constructor|].
  now apply insert_desc_sorted.
Qed.

(** The comprehension over rows that all satisfy the model returns one
    task per row, in order. *)
Lemma comprehension_row_to_task (l : list Row) :
  forallb row_ok l = true ->
  exists ts, comprehension row_to_task l = inr ts /\ map row_of_task ts = l.
Proof.
  induction l as [|r l IH]; cbn [comprehension forallb]; intros H.
  - now exists [].
  - apply andb_prop in H as [Hr Hl].
    destruct (row_to_task_ok r Hr) as (t & Ht & Hrow & _).
    destruct (IH Hl) as (ts & Hts & Hmap).
    exists (t :: ts). rewrite Ht. cbn [bind]. rewrite Hts. cbn [bind map].
    now rewrite Hrow, Hmap.
Qed.

Lemma forallb_perm {A} (f : A -> bool) (l l' : list A) :
  Permutation l l' -> forallb f l = true -> forallb f l' = true.
Proof.
  intros Hp H. apply forallb_forall. intros x Hx.
  rewrite forallb_forall in H. apply H.
  eapply Permutation_in; [symmetry; exact Hp | exact Hx].
Qed.

Lemma sorted_map_tasks (ts : list Task) :
  rows_newest_first (map row_of_task ts) -> newest_first ts.
Proof.
  unfold rows_newest_first, newest_first.
  induction ts as [|t ts IH]; cbn; intros H; [constructor|].
  apply StronglySorted_inv in H as [Hs Hf]. constructor; [now apply IH|].
  rewrite Forall_map in Hf. exact Hf.
Qed.

Lemma newest_first_strict (ts : list Task) :
  newest_first ts ->
  NoDup (map (fun t => instant (created_at t)) ts) ->
  strictly_newest_first ts.
Proof.
  unfold newest_first, strictly_newest_first.
  induction ts as [|t ts IH]; cbn; intros Hs Hn; [constructor|].
  apply StronglySorted_inv in Hs as [Hs Hf].
  apply NoDup_cons_iff in Hn as [Hnot Hn].
  constructor; [now apply IH|].
  rewrite Forall_forall in *. intros x Hx.
  specialize (Hf x Hx).
  assert (instant (created_at x) <> instant (created_at t)).
  { intros Heq. apply Hnot. rewrite <- Heq.
    apply (in_map (fun t => instant (created_at t))). exact Hx. }
  lia.
Qed.

Lemma execute_list_tasks (bc : BigQueryClient) (rows : list Row) :
  execute (get_full_table_id bc) rows (list_tasks_query bc) []
  = inr (rows, order_by_created_at_desc rows).
Proof. unfold execute. now rewrite parse_list_tasks_query. Qed.

(** C6. With the SELECT served, [list_tasks] builds its answer from all
    the rows of the table, ordered by [created_at] descending, and leaves
    the table as it was.  When the rows satisfy the model (as every row
    the handlers write does) the answer is one task per stored row (none
    for an empty table), [created_at] never increasing along it; when the
    stored timestamps are pairwise distinct it decreases strictly, so the
    task created last is first. *)
Theorem list_tasks_newest_first (bc : BigQueryClient) (c : Client) :
  next_fault c = None ->
  exists results,
    Permutation results (table c) /\
    rows_newest_first results /\
    list_tasks bc c
    = (after_call c (list_tasks_query bc) [] (table c),
       try_except (comprehension row_to_task results) list_tasks_except) /\
    (forallb row_ok (table c) = true ->
     exists ts,
       snd (list_tasks bc c) = inr ts /\
       map row_of_task ts = results /\
       Permutation (map row_of_task ts) (table c) /\
       newest_first ts /\
       (table c = [] -> ts = []) /\
       (NoDup (map row_created_at (table c)) -> strictly_newest_first ts) /\
       (forall t rest, ts = t :: rest ->
          forall t', In t' ts -> (instant (created_at t') <= instant (created_at t))%Z)).
Proof.
  intros Hf.
  pose proof (order_by_created_at_desc_perm (table c)) as Hperm.
  exists (order_by_created_at_desc (table c)).
  split; [exact Hperm|]. split; [apply order_by_created_at_desc_sorted|].
  assert (Hl : list_tasks bc c
               = (after_call c (list_tasks_query bc) [] (table c),
                  try_except
                    (comprehension row_to_task
                       (order_by_created_at_desc (table c)))
                    list_tasks_except)).
  { unfold list_tasks, run_bigquery_query, client_query.
    rewrite Hf, execute_list_tasks. unfold ret. cbn [bind].
    now destruct (comprehension _ _). }
  split; [exact Hl|].
  intros Hok.
  assert (Hok' : forallb row_ok (order_by_created_at_desc (table c)) = true).
  { eapply forallb_perm; [symmetry; exact Hperm | exact Hok]. }
  destruct (comprehension_row_to_task _ Hok') as (ts & Hts & Hmap).
  assert (Hnew : newest_first ts).
  { apply sorted_map_tasks. rewrite Hmap.
    apply order_by_created_at_desc_sorted. }
  exists ts. split; [|split; [|split; [|split; [|split; [|split]]]]].
  - rewrite Hl. cbn [snd]. now rewrite Hts.
  - exact Hmap.
  - now rewrite Hmap.
  - exact Hnew.
  - intros E. rewrite E in Hmap. cbn in Hmap.
    now destruct ts.
  - intros Hn. apply newest_first_strict; [exact Hnew|].
    assert (Hc : map (fun t => instant (created_at t)) ts
                = map row_created_at (map row_of_task ts)).
    { rewrite map_map. reflexivity. }
    rewrite Hc, Hmap.
    eapply Permutation_NoDup; [|exact Hn].
    apply Permutation_map. now symmetry.
  - intros t rest -> t' [<-|Hin]; [lia|].
    unfold newest_first in Hnew.
    apply StronglySorted_inv in Hnew as [_ Hall].
    rewrite Forall_forall in Hall. now apply Hall.
Qed.

Lemma list_tasks_newest_first_witness :
  exists ts,
    snd (list_tasks sample_client sample_store) = inr ts /\
    map (fun t => instant (created_at t)) ts = [30; 20; 10]%Z.
Proof.
  destruct (list_tasks_newest_first sample_client sample_store eq_refl)
    as (results & _ & _ & _ & Hok).
  destruct (Hok eq_refl) as (ts & Hl & _).
  exists ts. split; [exact Hl|].
  cbv in Hl. injection Hl as <-. reflexivity.
Defined.

(** Two tasks created one after the other on an empty table come back
    with the later one first. *)
Example list_tasks_after_two_creates :
  let c1 := fst (POST_tasks sample_client empty_store (title_only "first") "id-1" 100) in
  let c2 := fst (POST_tasks sample_client c1 (title_only "second") "id-2" 200) in
  option_map (map title)
    (match snd (list_tasks sample_client c2) with
     | inr ts => Some ts
     | inl _ => None
     end)
  = Some ["second"; "first"].
Proof. reflexivity. Qed.

(* ===================================================================== *)
(** ** The rows the handlers write satisfy the model                     *)
(* ===================================================================== *)

Section invariant.

Variable bc : BigQueryClient.

Lemma get_task_table c task_id :
  table (fst (get_task bc c task_id)) = table c.
Proof.
  destruct (next_fault c) as [e|] eqn:Hf.
  - now rewrite (get_task_fault bc c task_id e Hf).
  - now rewrite (get_task_served bc c task_id Hf).
Qed.

Lemma merged_row_ok (u : TaskUpdate) (now : datetime) (r : Row) :
  update_ok u = true -> row_ok r = true -> row_ok (merged_row u now r) = true.
Proof.
  unfold update_ok, row_ok, merged_row. destruct u as [t d s]; cbn.
  intros Hu Hr.
  apply andb_prop in Hu as [Ht Hd].
  apply andb_prop in Hr as [Hr Hs]. apply andb_prop in Hr as [Hrt Hrd].
  apply andb_true_intro. split; [apply andb_true_intro; split|].
  - now destruct t.
  - now destruct d.
  - destruct s as [s|]; [|exact Hs]. now rewrite TaskStatus_of_value_value.
Qed.

Lemma execute_delete_task (rows : list Row) (task_id : string) :
  execute (get_full_table_id bc) rows (delete_task_query bc)
          [task_id_param task_id]
  = inr (filter (fun r => negb (id_is task_id r)) rows, []).
Proof. unfold execute. now rewrite parse_delete_task_query. Qed.

Lemma forallb_filter {A} (f g : A -> bool) (l : list A) :
  forallb f l = true -> forallb f (filter g l) = true.
Proof.
  rewrite !forallb_forall. intros H x Hx. apply filter_In in Hx as [Hx _].
  now apply H.
Qed.

(** Starting from a table whose rows satisfy the model, every handler
    leaves such a table. *)
Lemma handlers_keep_rows_ok (c : Client) :
  forallb row_ok (table c) = true ->
  (forall task uuid4 now,
     create_ok task = true ->
     forallb row_ok (table (fst (create_task bc c task uuid4 now))) = true) /\
  (forall task_id u now,
     update_ok u = true ->
     forallb row_ok (table (fst (update_task bc c task_id u now))) = true) /\
  (forall task_id,
     forallb row_ok (table (fst (delete_task bc c task_id))) = true) /\
  (forall task_id, table (fst (get_task bc c task_id)) = table c) /\
  table (fst (list_tasks bc c)) = table c.
Proof.
  intros Hok. split; [|split; [|split; [|split]]].
  - intros task uuid4 now Hc. rewrite create_task_cases. cbv zeta.
    destruct (next_fault c); cbn [fst after_call table]; [exact Hok|].
    rewrite forallb_app, Hok. cbn. rewrite andb_true_r.
    unfold row_ok, create_ok in *. cbn.
    now rewrite Hc, TaskStatus_of_value_value.
  - intros task_id u now Hu.
    pose proof (get_task_table c task_id) as Ht.
    destruct (get_task bc c task_id) as [c1 [e|prior]] eqn:Hg; cbn [fst] in Ht.
    + destruct (existence_check_propagates bc c c1 task_id e Hg) as [H _].
      rewrite H. cbn [fst]. now rewrite Ht.
    + rewrite (update_task_calls bc c c1 task_id u now prior Hg).
      cbn [after_call table]. rewrite Ht.
      destruct (next_fault c1); [exact Hok|].
      rewrite forallb_forall in *. intros x Hx.
      apply in_map_iff in Hx as (r & <- & Hr).
      destruct (id_is task_id r); [|now apply Hok].
      apply merged_row_ok; [exact Hu | now apply Hok].
  - intros task_id. unfold delete_task.
    pose proof (get_task_table c task_id) as Ht.
    destruct (get_task bc c task_id) as [c1 [e|prior]]; cbn [fst] in *.
    + now rewrite Ht.
    + unfold run_bigquery_query, client_query.
      destruct (next_fault c1); cbn [fst after_call table].
      * now rewrite Ht.
      * rewrite execute_delete_task. cbn [fst after_call table].
        rewrite Ht. now apply forallb_filter.
  - intros task_id. apply get_task_table.
  - unfold list_tasks, run_bigquery_query, client_query.
    destruct (next_fault c); [reflexivity|].
    now rewrite execute_list_tasks.
Qed.

End invariant.

(* ===================================================================== *)
(** ** Request models                                                     *)
(* ===================================================================== *)

(** X1. [TaskStatus] and its values determine each other: the member
    with value [v] is [s] exactly when [s]'s value is [v], so the three
    values are pairwise distinct and every other string has no member. *)
Theorem TaskStatus_value_roundtrip (s : TaskStatus) (v : string) :
  (TaskStatus_of_value v = Some s <-> TaskStatus_value s = v) /\
  (TaskStatus_of_value v = None <->
   v <> "pending" /\ v <> "in_progress" /\ v <> "completed").
Proof.
  split.
  - split.
    + apply TaskStatus_value_of_value.
    + intros <-. apply TaskStatus_of_value_value.
  - unfold TaskStatus_of_value.
    destruct (String.eqb_spec v "pending");
      [split; [discriminate | tauto]|].
    destruct (String.eqb_spec v "in_progress");
      [split; [discriminate | tauto]|].
    destruct (String.eqb_spec v "completed");
      [split; [discriminate | tauto]|].
    tauto.
Qed.

(** Lengths are counted in code points, not in bytes: 150 times a
    two-byte character is a valid title, 201 times is not. *)
Example title_length_in_code_points :
  String.length (times "é" 150) = 300 /\ len (times "é" 150) = 150 /\
  title_ok (times "é" 150) = true /\ title_ok (times "é" 200) = true /\
  title_ok (times "é" 201) = false /\ title_ok "" = false /\
  description_ok (times "é" 1000) = true /\
  description_ok (times "é" 1001) = false /\
  http_status (snd (POST_tasks sample_client empty_store
                      (title_only (times "é" 150)) "id-1" 7)) = 200.
Proof. vm_compute. repeat split. Qed.

Lemma title_ok_iff (s : string) : title_ok s = true <-> 1 <= len s <= 200.
Proof.
  unfold title_ok. rewrite andb_true_iff, !Nat.leb_le. tauto.
Qed.

Lemma description_ok_iff (s : string) :
  description_ok s = true <-> len s <= 1000.
Proof. unfold description_ok. apply Nat.leb_le. Qed.

Lemma status_value_iff (v : string) :
  present (TaskStatus_of_value v) = true <-> exists st, v = TaskStatus_value st.
Proof.
  split.
  - destruct (TaskStatus_of_value v) as [st|] eqn:E; [|discriminate].
    intros _. exists st. symmetry. now apply TaskStatus_value_of_value.
  - intros [st ->]. now rewrite TaskStatus_of_value_value.
Qed.

Lemma create_body_ok_iff (b : Body) :
  create_body_ok b = true <-> create_body_accepted b.
Proof.
  unfold create_body_ok, create_body_accepted.
  rewrite !andb_true_iff.
  destruct b as [bt bd bs]; cbn.
  assert (Ht : match bt with
               | Some (JString s) => title_ok s
               | _ => false
               end = true
               <-> exists s, bt = Some (JString s) /\ 1 <= len s <= 200).
  { destruct bt as [[|s]|].
    - split; [discriminate | intros (s & [=] & _)].
    - rewrite title_ok_iff. split.
      + intros H. now exists s.
      + now intros (s' & [= <-] & H).
    - split; [discriminate | intros (s & [=] & _)]. }
  assert (Hd : match bd with
               | Some (JString s) => description_ok s
               | _ => true
               end = true
               <-> forall d, bd = Some (JString d) -> len d <= 1000).
  { destruct bd as [[|d]|].
    - split; [intros _ d [=] | reflexivity].
    - rewrite description_ok_iff. split.
      + now intros H d' [= <-].
      + intros H. now apply H.
    - split; [intros _ d [=] | reflexivity]. }
  assert (Hs : match bs with
               | Some (JString v) => present (TaskStatus_of_value v)
               | Some JNull => false
               | None => true
               end = true
               <-> (bs = None \/
                    exists st, bs = Some (JString (TaskStatus_value st)))).
  { destruct bs as [[|v]|].
    - split; [discriminate | intros [[=] | (st & [=])]].
    - rewrite status_value_iff. split.
      + intros (st & ->). right. now exists st.
      + intros [[=] | (st & [= ->])]. now exists st.
    - split; [now left | reflexivity]. }
  tauto.
Qed.

Lemma update_body_ok_iff (b : Body) :
  update_body_ok b = true <-> update_body_accepted b.
Proof.
  unfold update_body_ok, update_body_accepted.
  rewrite !andb_true_iff.
  destruct b as [bt bd bs]; cbn.
  assert (Ht : match bt with
               | Some (JString s) => title_ok s
               | _ => true
               end = true
               <-> forall s, bt = Some (JString s) -> 1 <= len s <= 200).
  { destruct bt as [[|s]|].
    - split; [intros _ s [=] | reflexivity].
    - rewrite title_ok_iff. split.
      + now intros H s' [= <-].
      + intros H. now apply H.
    - split; [intros _ s [=] | reflexivity]. }
  assert (Hd : match bd with
               | Some (JString s) => description_ok s
               | _ => true
               end = true
               <-> forall d, bd = Some (JString d) -> len d <= 1000).
  { destruct bd as [[|d]|].
    - split; [intros _ d [=] | reflexivity].
    - rewrite description_ok_iff. split.
      + now intros H d' [= <-].
      + intros H. now apply H.
    - split; [intros _ d [=] | reflexivity]. }
  assert (Hs : match bs with
               | Some (JString v) => present (TaskStatus_of_value v)
               | _ => true
               end = true
               <-> forall v, bs = Some (JString v) ->
                             exists st, v = TaskStatus_value st).
  { destruct bs as [[|v]|].
    - split; [intros _ v [=] | reflexivity].
    - rewrite status_value_iff. split.
      + now intros H v' [= <-].
      + intros H. now apply H.
    - split; [intros _ v [=] | reflexivity]. }
  tauto.
Qed.

Lemma row_ok_iff (r : Row) : row_ok r = true <-> row_within_model r.
Proof.
  unfold row_ok, row_within_model. rewrite !andb_true_iff, title_ok_iff.
  assert (Hd : optional_ok (row_description r) = true
               <-> forall d, row_description r = Some d -> len d <= 1000).
  { destruct (row_description r) as [d|]; cbn.
    - rewrite description_ok_iff. split.
      + now intros H d' [= <-].
      + intros H. now apply H.
    - split; [intros _ d [=] | reflexivity]. }
  assert (Hs : match TaskStatus_of_value (row_status r) with
               | Some _ => true
               | None => false
               end = true
               <-> exists st, row_status r = TaskStatus_value st).
  { apply (status_value_iff (row_status r)). }
  tauto.
Qed.

Lemma TaskCreate_validate_accepts (b : Body) :
  create_body_ok b = true -> exists task, TaskCreate_validate b = inr task.
Proof.
  unfold create_body_ok, TaskCreate_validate.
  destruct b as [[[|t]|] [[|d]|] [[|s]|]]; cbn; try discriminate;
    unfold check_title, check_description, check_status, bind; cbn;
    intros H;
    repeat match type of H with
           | (_ && _)%bool = true => apply andb_prop in H as [H ?]
           end;
    try discriminate;
    repeat match goal with
           | Hx : title_ok _ = true |- _ => rewrite Hx; clear Hx
           | Hx : description_ok _ = true |- _ => rewrite Hx; clear Hx
           | Hx : present (TaskStatus_of_value ?v) = true |- _ =>
               destruct (TaskStatus_of_value v); [clear Hx | discriminate Hx]
           end;
    eexists; reflexivity.
Qed.

Lemma TaskCreate_validate_rejects (b : Body) :
  create_body_ok b = false -> TaskCreate_validate b = inl ValidationError.
Proof.
  unfold create_body_ok, TaskCreate_validate.
  destruct b as [[[|t]|] [[|d]|] [[|s]|]]; cbn; try reflexivity;
    unfold check_title, check_description, check_status, bind; cbn;
    destruct (title_ok t); cbn; try reflexivity;
    try (destruct (description_ok d); cbn; try reflexivity);
    try (destruct (TaskStatus_of_value s); cbn; try reflexivity);
    discriminate.
Qed.

(** X2. A create body is accepted exactly when its title is a string of
    1 to 200 code points, its description is absent, [null] or a string of
    at most 1000 code points, and its status is absent or one of the three
    values; a rejected body is answered with 422 and the service is not
    called. *)
Theorem POST_tasks_validation (bc : BigQueryClient) (c : Client) (b : Body)
  (uuid4 : string) (now : datetime) :
  ((exists task, TaskCreate_validate b = inr task) <-> create_body_ok b = true) /\
  (create_body_ok b = true <-> create_body_accepted b) /\
  (create_body_ok b = false ->
   POST_tasks bc c b uuid4 now = (c, inl RequestValidationError) /\
   http_status (snd (POST_tasks bc c b uuid4 now)) = 422).
Proof.
  split; [|split].
  - split.
    + intros [task H]. destruct (create_body_ok b) eqn:E; [reflexivity|].
      rewrite (TaskCreate_validate_rejects b E) in H. discriminate.
    + apply TaskCreate_validate_accepts.
  - apply create_body_ok_iff.
  - intros E. unfold POST_tasks.
    rewrite (TaskCreate_validate_rejects b E). now split.
Qed.

Lemma POST_tasks_validation_witness :
  POST_tasks sample_client sample_store (title_only "") "id-1" 7
  = (sample_store, inl RequestValidationError).
Proof.
  apply (POST_tasks_validation sample_client sample_store (title_only "")
           "id-1" 7).
  reflexivity.
Defined.

Lemma TaskUpdate_validate_accepts (b : Body) :
  update_body_ok b = true -> exists u, TaskUpdate_validate b = inr u.
Proof.
  unfold update_body_ok, TaskUpdate_validate.
  destruct b as [[[|t]|] [[|d]|] [[|s]|]]; cbn;
    unfold check_optional, check_title, check_description, check_status, bind;
    cbn; intros H;
    repeat match type of H with
           | (_ && _)%bool = true => apply andb_prop in H as [H ?]
           end;
    try discriminate;
    repeat match goal with
           | Hx : title_ok _ = true |- _ => rewrite Hx; clear Hx
           | Hx : description_ok _ = true |- _ => rewrite Hx; clear Hx
           | Hx : present (TaskStatus_of_value ?v) = true |- _ =>
               destruct (TaskStatus_of_value v); [clear Hx | discriminate Hx]
           end;
    eexists; reflexivity.
Qed.

Lemma TaskUpdate_validate_rejects (b : Body) :
  update_body_ok b = false -> TaskUpdate_validate b = inl ValidationError.
Proof.
  unfold update_body_ok, TaskUpdate_validate.
  destruct b as [[[|t]|] [[|d]|] [[|s]|]]; cbn; try discriminate;
    unfold check_optional, check_title, check_description, check_status, bind;
    cbn;
    try (destruct (title_ok t); cbn; try reflexivity);
    try (destruct (description_ok d); cbn; try reflexivity);
    try (destruct (TaskStatus_of_value s); cbn; try reflexivity);
    discriminate.
Qed.

(** X3. An update body is accepted exactly when each of its fields is
    absent, [null] or a valid value (a title of 1 to 200 code points, a
    description of at most 1000, one of the three status values); the
    empty body is accepted.  A rejected body is answered with 422 before
    the existence check: the service is not called, whether or not the id
    exists. *)
Theorem PUT_tasks_validation (bc : BigQueryClient) (c : Client)
  (task_id : string) (b : Body) (now : datetime) :
  ((exists u, TaskUpdate_validate b = inr u) <-> update_body_ok b = true) /\
  (update_body_ok b = true <-> update_body_accepted b) /\
  update_body_ok empty_body = true /\
  (update_body_ok b = false ->
   PUT_tasks bc c task_id b now = (c, inl RequestValidationError) /\
   http_status (snd (PUT_tasks bc c task_id b now)) = 422).
Proof.
  split; [|split; [|split]].
  - split.
    + intros [u H]. destruct (update_body_ok b) eqn:E; [reflexivity|].
      rewrite (TaskUpdate_validate_rejects b E) in H. discriminate.
    + apply TaskUpdate_validate_accepts.
  - apply update_body_ok_iff.
  - reflexivity.
  - intros E. unfold PUT_tasks.
    rewrite (TaskUpdate_validate_rejects b E). now split.
Qed.

Lemma PUT_tasks_validation_witness :
  PUT_tasks sample_client sample_store "zz" (title_only "") 7
  = (sample_store, inl RequestValidationError).
Proof.
  apply (PUT_tasks_validation sample_client sample_store "zz"
           (title_only "") 7).
  reflexivity.
Defined.

(** X4. [row_to_task] builds a task exactly from the rows that meet the
    constraints of [Task] (a title of 1 to 200 code points, a description
    of at most 1000, a status among the three values); the task then
    carries the row's six values, its timestamps aware,
    [row_to_task] is the inverse of taking a task's row, and any other row
    ends in [ValidationError]. *)
Theorem row_to_task_iff_row_ok (r : Row) :
  ((exists t, row_to_task r = inr t) <-> row_within_model r) /\
  (row_ok r = true <-> row_within_model r) /\
  (forall t, row_to_task r = inr t ->
     row_of_task t = r /\ task_ok t = true /\
     created_at t = utc (row_created_at r) /\
     updated_at t = utc (row_updated_at r) /\
     row_to_task (row_of_task t) = inr t) /\
  (~ row_within_model r -> row_to_task r = inl ValidationError).
Proof.
  split; [|split; [apply row_ok_iff|split]].
  - rewrite <- row_ok_iff. split.
    + intros [t H]. now apply row_to_task_inv in H.
    + intros H. destruct (row_to_task_ok r H) as (t & Ht & _). now exists t.
  - intros t H. destruct (row_to_task_inv r t H) as (_ & Hr & Hok).
    pose proof (row_to_task_read_back r t H) as Hrb.
    split; [exact Hr|]. split; [exact Hok|].
    split; [rewrite <- Hr, <- Hrb; reflexivity|].
    split; [rewrite <- Hr, <- Hrb; reflexivity|].
    rewrite (row_to_task_of_task t Hok). now f_equal.
  - rewrite <- row_ok_iff. intros Hn.
    assert (H : row_ok r = false) by (destruct (row_ok r); congruence).
    revert H. clear Hn. intros H.
    destruct (row_to_task r) as [e|t] eqn:E.
    + apply row_to_task_raises in E. now subst.
    + apply row_to_task_inv in E as [E _]. congruence.
Qed.

(* ===================================================================== *)
(** ** What the handlers raise                                            *)
(* ===================================================================== *)

Section outcomes.

Variable bc : BigQueryClient.

Lemma list_tasks_cases (c : Client) :
  list_tasks bc c
  = (after_call c (list_tasks_query bc) [] (table c),
     match next_fault c with
     | Some e => inl (list_tasks_except e)
     | None =>
         try_except (comprehension row_to_task
                       (order_by_created_at_desc (table c)))
                    list_tasks_except
     end).
Proof.
  unfold list_tasks, run_bigquery_query, client_query.
  destruct (next_fault c); [reflexivity|].
  rewrite execute_list_tasks. unfold ret. cbn [bind].
  now destruct (comprehension _ _).
Qed.

Lemma get_task_cases (c : Client) (task_id : string) :
  get_task bc c task_id
  = (after_call c (get_task_query bc) [task_id_param task_id] (table c),
     match next_fault c with
     | Some e => inl (get_task_except e)
     | None => try_except (get_task_body (filter (id_is task_id) (table c)))
                          get_task_except
     end).
Proof.
  destruct (next_fault c) as [e|] eqn:Hf.
  - now rewrite (get_task_fault bc c task_id e Hf).
  - now rewrite (get_task_served bc c task_id Hf).
Qed.

(** [delete_task] once the existence check has returned. *)
Lemma delete_task_after_get (c c1 : Client) (task_id : string) (prior : Task) :
  get_task bc c task_id = (c1, inr prior) ->
  delete_task bc c task_id
  = (after_call c1 (delete_task_query bc) [task_id_param task_id]
       (match next_fault c1 with
        | Some _ => table c1
        | None => filter (fun r => negb (id_is task_id r)) (table c1)
        end),
     match next_fault c1 with
     | Some e => inl (delete_task_except e)
     | None => inr [("message", VStr "Task deleted successfully")]
     end).
Proof.
  intros Hg. unfold delete_task. rewrite Hg.
  unfold run_bigquery_query, client_query.
  destruct (next_fault c1); [reflexivity|].
  now rewrite execute_delete_task.
Qed.

(** [update_task] when the UPDATE fails, for any request. *)
Lemma update_task_fault_after_get (c c1 : Client) (task_id : string)
  (u : TaskUpdate) (now : datetime) (prior : Task) (e : exn) :
  get_task bc c task_id = (c1, inr prior) ->
  next_fault c1 = Some e ->
  update_task bc c task_id u now
  = (after_call c1 (update_task_query bc (update_task_fields u now))
       (update_task_params task_id (update_task_fields u now)) (table c1),
     inl (update_task_except e)).
Proof.
  intros Hg Hf. unfold update_task. rewrite Hg, update_task_fields_nonempty.
  unfold run_bigquery_query, client_query. now rewrite Hf.
Qed.

Lemma is_http_try_except {A} (body : result A) (handler : exn -> exn) :
  (forall e, service_error (handler e) = false) ->
  is_http (try_except body handler) = true.
Proof.
  intros H. destruct body as [e|a]; cbn; [|reflexivity].
  specialize (H e). now destruct (handler e).
Qed.

Lemma get_task_is_http (c : Client) (task_id : string) :
  is_http (snd (get_task bc c task_id)) = true.
Proof.
  unfold get_task. destruct (run_bigquery_query _ _ _ _) as [c' r]. cbn [snd].
  apply is_http_try_except. now intros [].
Qed.

End outcomes.

(** X5. Whatever the service does, a handler returns or raises an
    [HTTPException]: no exception of the service, of the validation or of
    Python itself leaves [create_task], [list_tasks], [get_task],
    [update_task] or [delete_task]. *)
Theorem handlers_raise_only_HTTPException (bc : BigQueryClient) (c : Client) :
  (forall task uuid4 now,
     is_http (snd (create_task bc c task uuid4 now)) = true) /\
  is_http (snd (list_tasks bc c)) = true /\
  (forall task_id, is_http (snd (get_task bc c task_id)) = true) /\
  (forall task_id u now,
     is_http (snd (update_task bc c task_id u now)) = true) /\
  (forall task_id, is_http (snd (delete_task bc c task_id)) = true).
Proof.
  split; [|split; [|split; [|split]]].
  - intros. unfold create_task.
    destruct (run_bigquery_query _ _ _ _) as [c' r]. cbn [snd].
    apply is_http_try_except. now intros [].
  - unfold list_tasks.
    destruct (run_bigquery_query _ _ _ _) as [c' r]. cbn [snd].
    apply is_http_try_except. now intros [].
  - apply get_task_is_http.
  - intros task_id u now.
    pose proof (get_task_is_http bc c task_id) as Hg.
    unfold update_task.
    destruct (get_task bc c task_id) as [c1 [e|prior]]; [exact Hg|].
    destruct (is_empty _); [reflexivity|].
    destruct (run_bigquery_query _ _ _ _) as [c' r]. cbn [snd].
    apply is_http_try_except. now intros [].
  - intros task_id.
    pose proof (get_task_is_http bc c task_id) as Hg.
    unfold delete_task.
    destruct (get_task bc c task_id) as [c1 [e|prior]]; [exact Hg|].
    destruct (run_bigquery_query _ _ _ _) as [c' r]. cbn [snd].
    apply is_http_try_except. now intros [].
Qed.

(** X6. When the call of [create_task] or of [list_tasks] raises, the
    request is answered with 400 if the exception is [BadRequest] and with
    500 for anything else, [NotFound] included: neither handler ever
    answers 404. *)
Theorem create_list_error_status (bc : BigQueryClient) (c : Client) (e : exn) :
  next_fault c = Some e ->
  (forall task uuid4 now,
     snd (create_task bc c task uuid4 now) = inl (create_task_except e) /\
     http_status (snd (create_task bc c task uuid4 now))
     = status_without_lookup e /\
     http_status (snd (create_task bc c task uuid4 now)) <> 404) /\
  snd (list_tasks bc c) = inl (list_tasks_except e) /\
  http_status (snd (list_tasks bc c)) = status_without_lookup e /\
  http_status (snd (list_tasks bc c)) <> 404.
Proof.
  intros Hf. split.
  - intros task uuid4 now. rewrite create_task_cases. cbv zeta. rewrite Hf.
    cbn [fst snd after_call table]. repeat split; now destruct e.
  - rewrite list_tasks_cases, Hf. cbn [fst snd after_call table].
    repeat split; now destruct e.
Qed.

Lemma create_list_error_status_witness :
  http_status (snd (list_tasks sample_client
                      (failing NotFound (table sample_store)))) = 500.
Proof.
  refine (proj1 (proj2 (proj2
    (create_list_error_status sample_client
       (failing NotFound (table sample_store)) NotFound _)))).
  reflexivity.
Defined.

(** X7. A failed SELECT of [get_task] is answered with 404 for
    [NotFound], 400 for [BadRequest] and 500 for any other error of the
    service; served or not, [get_task] sends one query and leaves the
    table as it was. *)
Theorem get_task_error_status (bc : BigQueryClient) (c : Client)
  (task_id : string) (e : exn) :
  next_fault c = Some e ->
  service_error e = true ->
  snd (get_task bc c task_id) = inl (get_task_except e) /\
  http_status (snd (get_task bc c task_id)) = status_with_lookup e /\
  (forall c' task_id',
     table (fst (get_task bc c' task_id')) = table c' /\
     issued c' (fst (get_task bc c' task_id'))
     = [(get_task_query bc, [task_id_param task_id'])]).
Proof.
  intros Hf He. rewrite get_task_cases, Hf. cbn [snd].
  split; [reflexivity|]. split; [now destruct e|].
  intros c' task_id'. split; [apply get_task_table | apply get_task_issued].
Qed.

Lemma get_task_error_status_witness :
  http_status (snd (get_task sample_client
                      (failing BadRequest (table sample_store)) "a")) = 400.
Proof.
  refine (proj1 (proj2
    (get_task_error_status sample_client
       (failing BadRequest (table sample_store)) "a" BadRequest _ _)));
    reflexivity.
Defined.

(** X8. When the existence check has passed and the call of the UPDATE or
    of the DELETE raises, the request is answered with 404 for [NotFound],
    400 for [BadRequest] and 500 for any other error of the service. *)
Theorem update_delete_error_status (bc : BigQueryClient) (c c1 : Client)
  (task_id : string) (prior : Task) (e : exn) :
  get_task bc c task_id = (c1, inr prior) ->
  next_fault c1 = Some e ->
  service_error e = true ->
  (forall u now,
     snd (update_task bc c task_id u now) = inl (update_task_except e) /\
     http_status (snd (update_task bc c task_id u now))
     = status_with_lookup e) /\
  snd (delete_task bc c task_id) = inl (delete_task_except e) /\
  http_status (snd (delete_task bc c task_id)) = status_with_lookup e.
Proof.
  intros Hg Hf He.
  split.
  - intros u now.
    rewrite (update_task_fault_after_get bc c c1 task_id u now prior e Hg Hf).
    cbn [fst snd after_call table]. repeat split; trivial. now destruct e.
  - rewrite (delete_task_after_get bc c c1 task_id prior Hg), Hf.
    cbn [fst snd after_call table]. repeat split; trivial. now destruct e.
Qed.

Lemma update_delete_error_status_witness :
  http_status (snd (delete_task sample_client
                      (failing_second GoogleAPICallError (table sample_store))
                      "b")) = 500.
Proof.
  refine (proj2 (proj2
    (update_delete_error_status sample_client
       (failing_second GoogleAPICallError (table sample_store))
       (fst (get_task sample_client
               (failing_second GoogleAPICallError (table sample_store)) "b"))
       "b"
       {| id := "b"; title := "write report"; description := None;
          status := PENDING; created_at := utc 20; updated_at := utc 20 |}
       GoogleAPICallError _ _ _))); reflexivity.
Defined.

(* ===================================================================== *)
(** ** DELETE /tasks/{task_id}                                            *)
(* ===================================================================== *)

Lemma filter_id_after_delete (task_id : string) (rows : list Row) :
  filter (id_is task_id) (filter (fun r => negb (id_is task_id r)) rows) = [].
Proof.
  induction rows as [|r l IH]; [reflexivity|]. cbn.
  destruct (id_is task_id r) eqn:Er; cbn; [exact IH|].
  now rewrite Er.
Qed.

(** X9. A served delete of an id the check has found answers 200 with the
    confirmation message and removes every row with that id, keeping the
    other rows in their order; a get of the id that follows is answered
    with 404. *)
Theorem delete_task_removes (bc : BigQueryClient) (c c1 : Client)
  (task_id : string) (prior : Task) :
  get_task bc c task_id = (c1, inr prior) ->
  next_fault c1 = None ->
  let c2 := fst (delete_task bc c task_id) in
  snd (delete_task bc c task_id)
  = inr [("message", VStr "Task deleted successfully")] /\
  http_status (snd (delete_task bc c task_id)) = 200 /\
  table c2 = filter (fun r => negb (id_is task_id r)) (table c) /\
  (forall r, In r (table c2) <-> In r (table c) /\ row_id r <> task_id) /\
  (next_fault c2 = None ->
   snd (get_task bc c2 task_id) = inl (HTTPException 404 "Task not found")).
Proof.
  intros Hg Hf c2.
  destruct (get_task_inr_task bc c c1 task_id prior Hg) as (_ & _ & Ht).
  assert (Hc2 : table c2 = filter (fun r => negb (id_is task_id r)) (table c)).
  { subst c2. rewrite (delete_task_after_get bc c c1 task_id prior Hg), Hf.
    cbn [fst after_call table]. now rewrite Ht. }
  rewrite (delete_task_after_get bc c c1 task_id prior Hg), Hf. cbn [snd].
  split; [reflexivity|]. split; [reflexivity|]. split; [exact Hc2|].
  split.
  - intros r. rewrite Hc2, filter_In. unfold id_is.
    destruct (String.eqb_spec (row_id r) task_id); cbn; intuition congruence.
  - intros Hf2. rewrite (get_task_served bc c2 task_id Hf2). cbn [snd].
    now rewrite Hc2, filter_id_after_delete.
Qed.

Lemma delete_task_removes_witness :
  table (fst (delete_task sample_client sample_store "a"))
  = [sample_row "b" 20].
Proof.
  refine (proj1 (proj2 (proj2
    (delete_task_removes sample_client sample_store
       (fst (get_task sample_client sample_store "a")) "a"
       {| id := "a"; title := "write report"; description := None;
          status := PENDING; created_at := utc 10; updated_at := utc 10 |}
       _ _)))); reflexivity.
Defined.

(* ===================================================================== *)
(** ** Update, then get                                                   *)
(* ===================================================================== *)

Lemma merged_row_of_task (prior : Task) (u : TaskUpdate) (now : datetime) :
  merged_row u now (row_of_task prior) = row_of_task (merged prior u now).
Proof. destruct u as [[t|] [d|] [s|]]; reflexivity. Qed.

Lemma merged_ok (prior : Task) (u : TaskUpdate) (now : datetime) :
  task_ok prior = true -> update_ok u = true ->
  task_ok (merged prior u now) = true.
Proof.
  unfold task_ok, update_ok, merged. destruct u as [t d s]; cbn.
  intros Hp Hu. apply andb_prop in Hp as [Hp1 Hp2].
  apply andb_prop in Hu as [Hu1 Hu2].
  apply andb_true_intro. split; [now destruct t | now destruct d].
Qed.

Lemma filter_map_merged (task_id : string) (f : Row -> Row) (rows : list Row) :
  (forall r, row_id (f r) = row_id r) ->
  filter (id_is task_id)
         (map (fun r => if id_is task_id r then f r else r) rows)
  = map f (filter (id_is task_id) rows).
Proof.
  intros Hid. induction rows as [|r l IH]; [reflexivity|]. cbn.
  destruct (id_is task_id r) eqn:Er.
  - assert (Hf : id_is task_id (f r) = true)
      by (unfold id_is in *; now rewrite Hid).
    rewrite Hf. cbn. now rewrite IH.
  - rewrite Er. exact IH.
Qed.

(** X10. For an id that exactly one row carries, the task a served get
    returns right after a served update has the id, title, description,
    status and [created_at] of the task the update returned and an
    [updated_at] of the same instant; the update answers with a naive
    [updated_at], the get with an aware one. *)
Theorem update_then_get_roundtrip (bc : BigQueryClient) (c c1 : Client)
  (task_id : string) (b : Body) (u : TaskUpdate) (now : datetime)
  (prior : Task) (r : Row) :
  get_task bc c task_id = (c1, inr prior) ->
  filter (id_is task_id) (table c) = [r] ->
  TaskUpdate_validate b = inr u ->
  next_fault c1 = None ->
  let c2 := fst (PUT_tasks bc c task_id b now) in
  next_fault c2 = None ->
  exists t t',
    snd (PUT_tasks bc c task_id b now) = inr t /\
    snd (get_task bc c2 task_id) = inr t' /\
    t' = read_back t /\
    id t' = id t /\ title t' = title t /\ description t' = description t /\
    status t' = status t /\ created_at t' = created_at t /\
    instant (updated_at t') = instant (updated_at t) /\
    aware (updated_at t) = false /\ aware (updated_at t') = true.
Proof.
  intros Hg E Hv Hf c2 Hf2.
  pose proof (TaskUpdate_validate_ok b u Hv) as Hu.
  pose proof (update_task_after_get bc c c1 task_id u now prior Hg Hu) as Hup.
  cbv zeta in Hup. rewrite Hf in Hup.
  assert (Hput : PUT_tasks bc c task_id b now = update_task bc c task_id u now)
    by (now apply PUT_tasks_valid).
  subst c2. rewrite Hput in *. rewrite Hup in *. cbn [fst snd] in *.
  destruct (get_task_inr_inv bc c c1 task_id prior Hg)
    as (_ & Hc1 & r0 & rs & E0 & Hr0).
  rewrite E in E0. injection E0 as <- <-.
  assert (Ht1 : table c1 = table c) by now subst c1.
  pose proof (row_to_task_read_back r prior Hr0) as Hrb.
  apply row_to_task_inv in Hr0 as (_ & Hrow & Hok).
  exists (merged prior u now), (read_back (merged prior u now)).
  split; [reflexivity|]. split.
  - rewrite get_task_served by exact Hf2. cbn [snd after_call table].
    rewrite Ht1, filter_map_merged by reflexivity.
    rewrite E. cbn [map]. rewrite get_task_body_cons.
    rewrite <- Hrow, merged_row_of_task.
    now rewrite (row_to_task_of_task _ (merged_ok prior u now Hok Hu)).
  - split; [reflexivity|]. cbn.
    repeat split; trivial.
    rewrite <- Hrb. reflexivity.
Qed.

Lemma update_then_get_roundtrip_witness :
  exists t t',
    snd (PUT_tasks sample_client sample_store "b" (only_status "completed") 50)
    = inr t /\
    snd (get_task sample_client
           (fst (PUT_tasks sample_client sample_store "b"
                   (only_status "completed") 50)) "b") = inr t' /\
    t' = read_back t.
Proof.
  destruct (update_then_get_roundtrip sample_client sample_store
              (fst (get_task sample_client sample_store "b")) "b"
              (only_status "completed")
              {| update_title := None; update_description := None;
                 update_status := Some COMPLETED |} 50
              {| id := "b"; title := "write report"; description := None;
                 status := PENDING; created_at := utc 20;
                 updated_at := utc 20 |}
              (sample_row "b" 20)
              eq_refl eq_refl eq_refl eq_refl eq_refl)
    as (t & t' & H1 & H2 & H3 & _).
  exists t, t'. now repeat split.
Defined.

(* ===================================================================== *)
(** ** Invariants of the table                                           *)
(* ===================================================================== *)

Lemma forallb_map_if {A} (p g : A -> bool) (f : A -> A) (l : list A) :
  forallb p l = true ->
  (forall x, In x l -> g x = true -> p (f x) = true) ->
  forallb p (map (fun x => if g x then f x else x) l) = true.
Proof.
  intros Hp Hf. apply forallb_forall. intros y Hy.
  apply in_map_iff in Hy as (x & <- & Hx).
  rewrite forallb_forall in Hp.
  destruct (g x) eqn:E; [now apply Hf | now apply Hp].
Qed.

(** The table after [update_task], in every case. *)
Lemma update_task_table (bc : BigQueryClient) (c : Client) (task_id : string)
  (u : TaskUpdate) (now : datetime) :
  table (fst (update_task bc c task_id u now)) = table c \/
  table (fst (update_task bc c task_id u now))
  = map (fun r => if id_is task_id r then merged_row u now r else r) (table c).
Proof.
  pose proof (get_task_table bc c task_id) as Ht.
  destruct (get_task bc c task_id) as [c1 [e|prior]] eqn:Hg; cbn [fst] in Ht.
  - left. destruct (existence_check_propagates bc c c1 task_id e Hg) as [H _].
    now rewrite H.
  - rewrite (update_task_calls bc c c1 task_id u now prior Hg).
    cbn [after_call table]. rewrite Ht.
    destruct (next_fault c1); [now left | now right].
Qed.

(** The table after [delete_task], in every case. *)
Lemma delete_task_table (bc : BigQueryClient) (c : Client) (task_id : string) :
  table (fst (delete_task bc c task_id)) = table c \/
  table (fst (delete_task bc c task_id))
  = filter (fun r => negb (id_is task_id r)) (table c).
Proof.
  pose proof (get_task_table bc c task_id) as Ht.
  destruct (get_task bc c task_id) as [c1 [e|prior]] eqn:Hg; cbn [fst] in Ht.
  - left. destruct (existence_check_propagates bc c c1 task_id e Hg) as [_ H].
    now rewrite H.
  - rewrite (delete_task_after_get bc c c1 task_id prior Hg).
    cbn [fst after_call table]. rewrite Ht.
    destruct (next_fault c1); [now left | now right].
Qed.

(** The table after [create_task], in every case. *)
Lemma create_task_table (bc : BigQueryClient) (c : Client) (task : TaskCreate)
  (uuid4 : string) (now : datetime) :
  table (fst (create_task bc c task uuid4 now)) = table c \/
  table (fst (create_task bc c task uuid4 now))
  = table c ++ [row_of_task (created task uuid4 now)].
Proof.
  rewrite create_task_cases. cbv zeta.
  destruct (next_fault c); [now left | now right].
Qed.

(** X11. [created_at <= updated_at] is kept in every row by a create and
    by a delete, and by an update whose clock reading is not before the
    [created_at] of the rows it rewrites. *)
Theorem handlers_keep_times_ordered (bc : BigQueryClient) (c : Client) :
  forallb row_times_ok (table c) = true ->
  (forall task uuid4 now,
     forallb row_times_ok (table (fst (create_task bc c task uuid4 now)))
     = true) /\
  (forall task_id,
     forallb row_times_ok (table (fst (delete_task bc c task_id))) = true) /\
  (forall task_id u now,
     (forall r, In r (table c) -> row_id r = task_id ->
                (row_created_at r <= now)%Z) ->
     forallb row_times_ok (table (fst (update_task bc c task_id u now)))
     = true).
Proof.
  intros Hok. split; [|split].
  - intros task uuid4 now.
    destruct (create_task_table bc c task uuid4 now) as [-> | ->];
      [exact Hok|].
    rewrite forallb_app, Hok. cbn. unfold row_times_ok. cbn.
    now rewrite Z.leb_refl.
  - intros task_id.
    destruct (delete_task_table bc c task_id) as [-> | ->]; [exact Hok|].
    now apply forallb_filter.
  - intros task_id u now Hnow.
    destruct (update_task_table bc c task_id u now) as [-> | ->]; [exact Hok|].
    apply forallb_map_if; [exact Hok|].
    intros r Hr Hid. unfold row_times_ok, merged_row. cbn.
    apply Z.leb_le. apply Hnow; [exact Hr|].
    unfold id_is in Hid. now apply String.eqb_eq in Hid.
Qed.

Lemma handlers_keep_times_ordered_witness :
  forallb row_times_ok
    (table (fst (update_task sample_client sample_store "a"
                   {| update_title := Some "x"; update_description := None;
                      update_status := None |} 30))) = true.
Proof.
  refine (proj2 (proj2
    (handlers_keep_times_ordered sample_client sample_store _)) "a" _ 30%Z _).
  - reflexivity.
  - intros r [<-|[<-|[<-|[]]]]; cbn; intros; try discriminate; lia.
Defined.

(** A clock reading before the stored [created_at] is written as it is:
    the row then has [updated_at < created_at]. *)
Example update_task_clock_behind :
  table (fst (update_task sample_client sample_store "b"
                {| update_title := None; update_description := None;
                   update_status := None |} 5))
  = [sample_row "a" 10;
     {| row_id := "b"; row_title := "write report"; row_description := None;
        row_status := "pending"; row_created_at := 20; row_updated_at := 5 |};
     sample_row "a" 30].
Proof. reflexivity. Qed.

Lemma NoDup_snoc {A} (l : list A) (x : A) :
  NoDup l -> ~ In x l -> NoDup (l ++ [x]).
Proof.
  induction l as [|y l IH]; cbn; intros Hn Hx.
  - constructor; [tauto | constructor].
  - apply NoDup_cons_iff in Hn as [Hy Hn]. constructor.
    + rewrite in_app_iff. cbn. intuition congruence.
    + apply IH; tauto.
Qed.

Lemma NoDup_row_ids_filter (f : Row -> bool) (rows : list Row) :
  NoDup (row_ids rows) -> NoDup (row_ids (filter f rows)).
Proof.
  unfold row_ids. induction rows as [|r l IH]; cbn; intros Hn; [constructor|].
  apply NoDup_cons_iff in Hn as [Hr Hn].
  destruct (f r); cbn; [|now apply IH].
  constructor; [|now apply IH].
  intros Hin. apply Hr. apply in_map_iff in Hin as (x & Hx & Hin).
  apply filter_In in Hin as [Hin _]. apply in_map_iff. now exists x.
Qed.

(** X12. No handler gives two rows the same id when the generated id is
    fresh: a create under an id no row carries keeps the ids pairwise
    distinct, a delete keeps them so, and an update leaves the ids of all
    rows, their number and their order as they were. *)
Theorem handlers_keep_ids_unique (bc : BigQueryClient) (c : Client) :
  NoDup (row_ids (table c)) ->
  (forall task uuid4 now,
     ~ In uuid4 (row_ids (table c)) ->
     NoDup (row_ids (table (fst (create_task bc c task uuid4 now))))) /\
  (forall task_id,
     NoDup (row_ids (table (fst (delete_task bc c task_id))))) /\
  (forall task_id u now,
     row_ids (table (fst (update_task bc c task_id u now)))
     = row_ids (table c)).
Proof.
  intros Hn. split; [|split].
  - intros task uuid4 now Hfresh.
    destruct (create_task_table bc c task uuid4 now) as [-> | ->];
      [exact Hn|].
    unfold row_ids in *. rewrite map_app. cbn. now apply NoDup_snoc.
  - intros task_id.
    destruct (delete_task_table bc c task_id) as [-> | ->]; [exact Hn|].
    now apply NoDup_row_ids_filter.
  - intros task_id u now.
    destruct (update_task_table bc c task_id u now) as [-> | ->];
      [reflexivity|].
    unfold row_ids. rewrite map_map. apply map_ext.
    intros r. now destruct (id_is task_id r).
Qed.

Lemma handlers_keep_ids_unique_witness :
  NoDup (row_ids (table (fst (create_task sample_client empty_store
                                {| create_title := "buy milk";
                                   create_description := None;
                                   create_status := PENDING |} "id-1" 7)))).
Proof.
  refine (proj1 (handlers_keep_ids_unique sample_client empty_store _)
            _ "id-1" 7%Z _).
  - constructor.
  - intros [].
Defined.

(* ===================================================================== *)
(** ** Create, then list; rows outside the model                         *)
(* ===================================================================== *)

Lemma comprehension_read_back (l : list Row) (ts : list Task) :
  comprehension row_to_task l = inr ts ->
  Forall (fun t => read_back t = t) ts.
Proof.
  revert ts. induction l as [|r l IH]; cbn [comprehension]; intros ts.
  - intros [= <-]. constructor.
  - destruct (row_to_task r) as [e|t] eqn:Er; cbn [bind]; [discriminate|].
    destruct (comprehension row_to_task l) as [e|ts'];
      cbn [bind]; [discriminate|].
    intros [= <-]. constructor; [|now apply IH].
    now apply (row_to_task_read_back r).
Qed.

(** X13. After a create, a served listing of a table whose rows satisfy
    the model contains the created task, with its two timestamps aware
    instead of naive, and has one task more than the table had rows; when
    the clock reading of the create is after every stored [created_at],
    that task is the first of the listing. *)
Theorem create_then_list (bc : BigQueryClient) (c c1 : Client)
  (task : TaskCreate) (uuid4 : string) (now : datetime) (t : Task) :
  create_task bc c task uuid4 now = (c1, inr t) ->
  forallb row_ok (table c) = true ->
  next_fault c1 = None ->
  exists ts,
    snd (list_tasks bc c1) = inr ts /\
    In (read_back t) ts /\
    List.length ts = S (List.length (table c)) /\
    ((forall r, In r (table c) -> (row_created_at r < now)%Z) ->
     hd_error ts = Some (read_back t)).
Proof.
  intros Hc Hok Hf.
  apply create_task_inr_inv in Hc as (_ & Hcok & Ht & Hc1).
  assert (Htab : table c1 = table c ++ [row_of_task t]) by now subst c1.
  assert (Hok1 : forallb row_ok (table c1) = true).
  { rewrite Htab, forallb_app, Hok. cbn. rewrite andb_true_r.
    subst t. unfold row_ok, create_ok in *. cbn.
    now rewrite Hcok, TaskStatus_of_value_value. }
  rewrite list_tasks_cases, Hf. cbn [snd].
  pose proof (order_by_created_at_desc_perm (table c1)) as Hperm.
  assert (Hok' : forallb row_ok (order_by_created_at_desc (table c1)) = true).
  { eapply forallb_perm; [symmetry; exact Hperm | exact Hok1]. }
  destruct (comprehension_row_to_task _ Hok') as (ts & Hts & Hmap).
  pose proof (comprehension_read_back _ _ Hts) as Hrb.
  rewrite Forall_forall in Hrb.
  exists ts. rewrite Hts. split; [reflexivity|].
  assert (Hrows : Permutation (map row_of_task ts) (table c ++ [row_of_task t]))
    by (now rewrite Hmap, <- Htab).
  assert (Hsame : forall t0, In t0 ts -> row_of_task t0 = row_of_task t ->
                             t0 = read_back t).
  { intros t0 H0 Heq. apply row_of_task_inj in Heq.
    now rewrite (Hrb t0 H0) in Heq. }
  assert (Hin : In (read_back t) ts).
  { assert (H : In (row_of_task t) (map row_of_task ts)).
    { eapply Permutation_in; [symmetry; exact Hrows|].
      rewrite in_app_iff. right. now left. }
    apply in_map_iff in H as (t0 & Heq & Hin').
    now rewrite <- (Hsame t0 Hin' Heq). }
  split; [exact Hin|]. split.
  - apply Permutation_length in Hrows.
    rewrite length_map, length_app in Hrows. cbn in Hrows. lia.
  - intros Hlater.
    assert (Hnew : newest_first ts).
    { apply sorted_map_tasks. rewrite Hmap.
      apply order_by_created_at_desc_sorted. }
    destruct ts as [|t0 rest]; [destruct Hin|]. cbn. f_equal.
    destruct Hin as [Heq|Hrest]; [exact Heq|].
    unfold newest_first in Hnew.
    apply StronglySorted_inv in Hnew as [_ Hall].
    rewrite Forall_forall in Hall. specialize (Hall _ Hrest).
    assert (H0 : In (row_of_task t0) (table c ++ [row_of_task t])).
    { eapply Permutation_in; [exact Hrows|]. now left. }
    apply in_app_iff in H0 as [H0|[H0|[]]].
    + specialize (Hlater _ H0). cbn in Hlater, Hall.
      assert (instant (created_at t) = now) by now subst t. lia.
    + symmetry in H0. apply Hsame; [now left | exact H0].
Qed.

Lemma create_then_list_witness :
  exists ts,
    snd (list_tasks sample_client
           (fst (create_task sample_client sample_store
                   {| create_title := "buy milk"; create_description := None;
                      create_status := PENDING |} "id-1" 40))) = inr ts /\
    In {| id := "id-1"; title := "buy milk"; description := None;
          status := PENDING; created_at := utc 40; updated_at := utc 40 |} ts.
Proof.
  destruct (create_then_list sample_client sample_store
              (fst (create_task sample_client sample_store
                      {| create_title := "buy milk";
                         create_description := None;
                         create_status := PENDING |} "id-1" 40))
              {| create_title := "buy milk"; create_description := None;
                 create_status := PENDING |} "id-1" 40
              {| id := "id-1"; title := "buy milk"; description := None;
                 status := PENDING; created_at := naive 40;
                 updated_at := naive 40 |}
              eq_refl eq_refl eq_refl) as (ts & H1 & H2 & _).
  exists ts. now split.
Defined.

Lemma comprehension_row_to_task_bad (l : list Row) :
  (exists r, In r l /\ row_ok r = false) ->
  comprehension row_to_task l = inl ValidationError.
Proof.
  induction l as [|x l IH]; intros (r & Hin & Hbad); [destruct Hin|].
  cbn [comprehension].
  destruct (row_to_task x) as [e|t] eqn:Ex.
  - apply row_to_task_raises in Ex. now subst.
  - cbn [bind]. destruct Hin as [->|Hin].
    + apply row_to_task_inv in Ex as [Ex _]. congruence.
    + rewrite IH; [reflexivity|]. now exists r.
Qed.

(** X14. One stored row outside the constraints of [Task] (a title of
    no or of more than 200 code points, a description of more than 1000, a
    status that is none of the three values) makes every served listing
    fail with 500, whatever the other rows are; [get_task] fails with 500
    exactly when the row its SELECT returns first is such a row. *)
Theorem bad_row_is_answered_500 (bc : BigQueryClient) (c : Client) :
  next_fault c = None ->
  ((exists r, In r (table c) /\ ~ row_within_model r) ->
   snd (list_tasks bc c) = inl (HTTPException 500 "Failed to fetch tasks")) /\
  (forall task_id r rs,
     filter (id_is task_id) (table c) = r :: rs ->
     (~ row_within_model r <->
      snd (get_task bc c task_id)
      = inl (HTTPException 500 "Failed to fetch task"))).
Proof.
  intros Hf.
  assert (Hno : forall r, ~ row_within_model r <-> row_ok r = false).
  { intros r. rewrite <- row_ok_iff. destruct (row_ok r); split; congruence. }
  split.
  - intros (r & Hin & Hbad). apply Hno in Hbad.
    rewrite list_tasks_cases, Hf. cbn [snd].
    rewrite comprehension_row_to_task_bad; [reflexivity|].
    exists r. split; [|exact Hbad].
    eapply Permutation_in; [|exact Hin].
    symmetry. apply order_by_created_at_desc_perm.
  - intros task_id r rs E. rewrite Hno.
    rewrite get_task_cases, Hf, E, get_task_body_cons. cbn [snd].
    destruct (row_to_task r) as [e|t] eqn:Er.
    + pose proof (row_to_task_raises r e Er) as ->. cbn.
      split; [reflexivity|]. intros _.
      destruct (row_ok r) eqn:Hok; [|reflexivity].
      destruct (row_to_task_ok r Hok) as (t & Ht & _). congruence.
    + apply row_to_task_inv in Er as [Hok _]. cbn. rewrite Hok.
      split; discriminate.
Qed.

Lemma bad_row_is_answered_500_witness :
  snd (list_tasks sample_client
         {| table := table sample_store ++ [bad_row]; faults := []; log := [] |})
  = inl (HTTPException 500 "Failed to fetch tasks").
Proof.
  refine (proj1 (bad_row_is_answered_500 sample_client
            {| table := table sample_store ++ [bad_row];
               faults := []; log := [] |} _) _).
  - reflexivity.
  - exists bad_row. split.
    + cbn. right. right. right. now left.
    + intros H. apply row_ok_iff in H. discriminate.
Defined.

(* ===================================================================== *)
(** ** The statements and the provisioned schema                         *)
(* ===================================================================== *)

(** X15. The statements agree with the table [_create_table_if_not_exists]
    declares: the INSERT names the schema's columns in order and binds one
    placeholder of the same name to each, both SELECTs read the schema's
    columns in order, the six parameters of the INSERT fit the six columns
    (so only the NULLABLE description can be bound to NULL), and every
    parameter an UPDATE binds besides [@task_id] fits the column of its
    name and is not NULL, the description included. *)
Theorem statements_fit_schema (bc : BigQueryClient) :
  let names := map field_name task_schema in
  create_task_query bc
  = (NL ++ "    INSERT INTO `" ++ get_full_table_id bc ++ "` " ++ NL ++
     "    (" ++ join ", " names ++ ")" ++ NL ++
     "    VALUES (" ++
     join ", " (map (fun n : string => ("@" ++ n)%string) names) ++ ")" ++ NL ++
     "    ")%string /\
  list_tasks_query bc
  = (NL ++ "    SELECT " ++ join ", " names ++ NL ++
     "    FROM `" ++ get_full_table_id bc ++ "`" ++ NL ++
     "    ORDER BY created_at DESC" ++ NL ++ "    ")%string /\
  get_task_query bc
  = (NL ++ "    SELECT " ++ join ", " names ++ NL ++
     "    FROM `" ++ get_full_table_id bc ++ "`" ++ NL ++
     "    WHERE id = @task_id" ++ NL ++ "    ")%string /\
  (forall task task_id now,
     Forall2 fits (create_task_params task task_id now) task_schema) /\
  (forall task_id u now p,
     In p (tl (update_task_params task_id (update_task_fields u now))) ->
     exists f, In f task_schema /\ fits p f /\ value p <> VNone) /\
  (forall task_id, exists f,
     hd_error task_schema = Some f /\
     type_ (task_id_param task_id) = field_type f /\
     value (task_id_param task_id) <> VNone).
Proof.
  split; [reflexivity|]. split; [reflexivity|]. split; [reflexivity|].
  split; [|split].
  - intros task task_id now. unfold create_task_params, task_schema.
    repeat constructor; cbn; try discriminate.
  - intros task_id u now p.
    destruct u as [[t|] [d|] [s|]]; cbn;
      intros H;
      repeat match type of H with
             | _ \/ _ => destruct H as [<-|H]
             | False => destruct H
             end;
      match goal with
      | |- exists f, _ /\ fits {| name := ?n; type_ := _; value := _ |} f /\ _ =>
          match goal with
          | |- _ => exists {| field_name := n; field_type := "STRING";
                              mode := "REQUIRED" |};
                    split; [cbn; tauto | repeat split; cbn; discriminate]
          | |- _ => exists {| field_name := n; field_type := "STRING";
                              mode := "NULLABLE" |};
                    split; [cbn; tauto | repeat split; cbn; discriminate]
          | |- _ => exists {| field_name := n; field_type := "TIMESTAMP";
                              mode := "REQUIRED" |};
                    split; [cbn; tauto | repeat split; cbn; discriminate]
          end
      end.
  - intros task_id. eexists. split; [reflexivity|]. split; [reflexivity|].
    discriminate.
Qed.

(* ===================================================================== *)
(** ** Start-up                                                           *)
(* ===================================================================== *)

Lemma missing_nil (env : environ) :
  missing env = [] ->
  exists p d t,
    getenv env "BIGQUERY_PROJECT_ID" = Some p /\ p <> "" /\
    getenv env "BIGQUERY_DATASET" = Some d /\ d <> "" /\
    getenv env "BIGQUERY_TABLE" = Some t /\ t <> "".
Proof.
  unfold missing, required_vars, unset. cbn [filter].
  destruct (getenv env "BIGQUERY_PROJECT_ID") as [[|a p]|]; try discriminate.
  destruct (getenv env "BIGQUERY_DATASET") as [[|b d]|]; try discriminate.
  destruct (getenv env "BIGQUERY_TABLE") as [[|e t]|]; try discriminate.
  intros _. exists (String a p), (String b d), (String e t).
  repeat split; discriminate.
Qed.

(** X16. [BigQueryClient()] raises [ValueError] exactly when one of the
    three variables is unset or empty; the message lists the variables
    concerned in the order of [required_vars], and neither the connection
    nor the service has been touched. *)
Theorem init_missing_variables (env : environ) (connect : string + unit)
  (w : Warehouse) :
  ((exists msg, snd (BigQueryClient_init env connect w) = inl (ValueError msg))
   <-> missing env <> []) /\
  (missing env <> [] ->
   BigQueryClient_init env connect w
   = (w, [], inl (ValueError ("Missing required environment variables: "
                              ++ join ", " (missing env))%string))) /\
  (forall var, In var (missing env) <->
     In var required_vars /\
     (getenv env var = None \/ getenv env var = Some "")).
Proof.
  assert (Hcase : missing env <> [] ->
            BigQueryClient_init env connect w
            = (w, [], inl (ValueError ("Missing required environment variables: "
                                       ++ join ", " (missing env))%string))).
  { intros H. unfold BigQueryClient_init.
    destruct (missing env); [contradiction|reflexivity]. }
  split; [|split].
  - split.
    + intros [msg H] E. unfold BigQueryClient_init in H. rewrite E in H.
      cbn [is_empty negb] in H.
      destruct connect; [discriminate|].
      destruct (_create_dataset_if_not_exists _ _) as [w1 o1].
      destruct (_create_table_if_not_exists _ _) as [w2 o2]. discriminate.
    + intros H. rewrite (Hcase H). eexists. reflexivity.
  - exact Hcase.
  - intros var. unfold missing. rewrite filter_In. unfold unset.
    destruct (getenv env var) as [[|a v]|]; intuition (try discriminate).
Qed.

(** X18. With the three variables set and the connection made,
    [BigQueryClient()] returns an instance whatever the two provisioning
    calls do: its three fields are the (non-empty) values of the
    variables, its full table id is [project.dataset.table], two lines are
    printed, and the datasets and tables that were there are still
    there. *)
Theorem init_survives_provisioning (env : environ) (w : Warehouse) :
  missing env = [] ->
  exists w' out self,
    BigQueryClient_init env (inr tt) w = (w', out, inr self) /\
    getenv env "BIGQUERY_PROJECT_ID" = Some (project_id self) /\
    getenv env "BIGQUERY_DATASET" = Some (dataset_id self) /\
    getenv env "BIGQUERY_TABLE" = Some (table_id self) /\
    project_id self <> "" /\ dataset_id self <> "" /\ table_id self <> "" /\
    get_full_table_id self
    = (project_id self ++ "." ++ dataset_id self ++ "." ++ table_id self)%string /\
    List.length out = 2 /\
    (exists ds, datasets w' = datasets w ++ ds) /\
    (exists ts, tables w' = tables w ++ ts).
Proof.
  intros H. destruct (missing_nil env H) as (p & d & t & Hp & Hp' & Hd & Hd' & Ht & Ht').
  unfold BigQueryClient_init. rewrite H. cbn [is_empty negb].
  unfold environ_value. rewrite Hp, Hd, Ht.
  unfold _create_dataset_if_not_exists, create_dataset.
  cbn [project_id dataset_id table_id].
  destruct (api_faults w) as [|[m|] fs] eqn:Ef;
    unfold _create_table_if_not_exists, create_table;
    cbn [api_faults datasets tables tbl_project tbl_dataset tbl_id
         project_id dataset_id table_id tl];
    repeat match goal with
      | |- context [match ?l with [] => _ | _ => _ end] =>
          match l with
          | tl _ => destruct l as [|[?|] ?]
          | _ => is_var l; destruct l as [|[?|] ?]
          end
      | |- context [if existsb ?f ?l then _ else _] => destruct (existsb f l)
      end;
    cbn [api_faults datasets tables];
    do 3 eexists; (split; [reflexivity|]);
    cbn [project_id dataset_id table_id];
    repeat split; trivial;
    try (exists []; now rewrite app_nil_r);
    try (eexists; reflexivity).
Qed.

Lemma init_survives_provisioning_witness :
  exists w' out self,
    BigQueryClient_init sample_environ (inr tt)
      {| datasets := []; tables := [];
         api_faults := [Some "quota exceeded"; Some "quota exceeded"] |}
    = (w', out, inr self) /\
    get_full_table_id self = "proj.todo.tasks".
Proof.
  destruct (init_survives_provisioning sample_environ
              {| datasets := []; tables := [];
                 api_faults := [Some "quota exceeded"; Some "quota exceeded"] |}
              eq_refl)
    as (w' & out & self & Hi & _).
  exists w', out, self. split; [exact Hi|].
  cbv in Hi. injection Hi as _ _ <-. reflexivity.
Defined.

Lemma is_dataset_refl (p d l : string) :
  is_dataset p d {| ds_project := p; ds_id := d; location := l |} = true.
Proof. unfold is_dataset. cbn. now rewrite !String.eqb_refl. Qed.

Lemma is_table_refl (p d t : string) (s : list SchemaField) :
  is_table p d t {| tbl_project := p; tbl_dataset := d; tbl_id := t;
                    schema := s |} = true.
Proof. unfold is_table. cbn. now rewrite !String.eqb_refl. Qed.

(** The two provisioning calls when the service serves both. *)
Lemma provision_served (self : BigQueryClient) (w : Warehouse) :
  api_faults w = [] ->
  let ds := {| ds_project := project_id self; ds_id := dataset_id self;
               location := "US" |} in
  let t := {| tbl_project := project_id self; tbl_dataset := dataset_id self;
              tbl_id := table_id self; schema := task_schema |} in
  let w1 := fst (_create_dataset_if_not_exists self w) in
  let w2 := fst (_create_table_if_not_exists self w1) in
  datasets w2
  = (if existsb (is_dataset (project_id self) (dataset_id self)) (datasets w)
     then datasets w else datasets w ++ [ds]) /\
  tables w2
  = (if existsb (is_table (project_id self) (dataset_id self) (table_id self))
                (tables w)
     then tables w else tables w ++ [t]) /\
  api_faults w2 = [] /\
  snd (_create_dataset_if_not_exists self w)
  = [("✅ Dataset '" ++ dataset_id self ++ "' is ready")%string] /\
  snd (_create_table_if_not_exists self w1)
  = [("✅ Table '" ++ table_id self ++ "' is ready")%string].
Proof.
  intros Hf ds t w1 w2. subst w1 w2 ds t.
  unfold _create_dataset_if_not_exists, _create_table_if_not_exists,
    create_dataset, create_table.
  rewrite Hf. cbn [fst snd api_faults datasets tables tl
                   tbl_project tbl_dataset tbl_id ds_project ds_id].
  destruct (existsb (is_dataset (project_id self) (dataset_id self))
              (datasets w)) eqn:E.
  - rewrite E. cbn [fst snd api_faults datasets tables]. now repeat split.
  - rewrite existsb_app, E. cbn [existsb orb]. rewrite is_dataset_refl.
    cbn [orb fst snd api_faults datasets tables]. now repeat split.
Qed.

Lemma provisioned_after (self : BigQueryClient) (ds : list Dataset)
  (ts : list Table) (fs : list (option string)) :
  let d := {| ds_project := project_id self; ds_id := dataset_id self;
              location := "US" |} in
  let t := {| tbl_project := project_id self; tbl_dataset := dataset_id self;
              tbl_id := table_id self; schema := task_schema |} in
  provisioned self
    {| datasets :=
         if existsb (is_dataset (project_id self) (dataset_id self)) ds
         then ds else ds ++ [d];
       tables :=
         if existsb (is_table (project_id self) (dataset_id self)
                              (table_id self)) ts
         then ts else ts ++ [t];
       api_faults := fs |} = true.
Proof.
  intros d t. unfold provisioned. cbn [datasets tables].
  apply andb_true_intro. split.
  - destruct (existsb _ ds) eqn:E; [exact E|].
    rewrite existsb_app. cbn. subst d. rewrite is_dataset_refl.
    now rewrite orb_true_r.
  - destruct (existsb _ ts) eqn:E; [exact E|].
    rewrite existsb_app. cbn. subst t. rewrite is_table_refl.
    now rewrite orb_true_r.
Qed.

(** X19. With the three variables set, the connection made and both
    provisioning calls served, the dataset and the table of the
    configuration are there after [BigQueryClient()]: what was missing is
    created (the dataset in location US, the table with the six-column
    schema), what was there is left as it was, and a second start-up
    changes nothing. *)
Theorem init_provisions_once (env : environ) (w : Warehouse) :
  missing env = [] ->
  api_faults w = [] ->
  exists w' self,
    BigQueryClient_init env (inr tt) w
    = (w', [("✅ Dataset '" ++ dataset_id self ++ "' is ready")%string;
            ("✅ Table '" ++ table_id self ++ "' is ready")%string],
       inr self) /\
    provisioned self w' = true /\
    datasets w'
    = (if existsb (is_dataset (project_id self) (dataset_id self)) (datasets w)
       then datasets w
       else datasets w ++ [{| ds_project := project_id self;
                             ds_id := dataset_id self; location := "US" |}]) /\
    tables w'
    = (if existsb (is_table (project_id self) (dataset_id self) (table_id self))
                  (tables w)
       then tables w
       else tables w ++ [{| tbl_project := project_id self;
                           tbl_dataset := dataset_id self;
                           tbl_id := table_id self;
                           schema := task_schema |}]) /\
    fst (fst (BigQueryClient_init env (inr tt) w')) = w'.
Proof.
  intros H Hf.
  assert (Hinit : forall w0, api_faults w0 = [] ->
    let self := {| project_id := environ_value env "BIGQUERY_PROJECT_ID";
                   dataset_id := environ_value env "BIGQUERY_DATASET";
                   table_id := environ_value env "BIGQUERY_TABLE" |} in
    BigQueryClient_init env (inr tt) w0
    = (fst (_create_table_if_not_exists self
              (fst (_create_dataset_if_not_exists self w0))),
       snd (_create_dataset_if_not_exists self w0) ++
       snd (_create_table_if_not_exists self
              (fst (_create_dataset_if_not_exists self w0))),
       inr self)).
  { intros w0 _ self. unfold BigQueryClient_init. rewrite H.
    cbn [is_empty negb]. fold self.
    destruct (_create_dataset_if_not_exists self w0) as [w1 o1].
    cbn [fst snd].
    now destruct (_create_table_if_not_exists self w1) as [w2 o2]. }
  set (self := {| project_id := environ_value env "BIGQUERY_PROJECT_ID";
                  dataset_id := environ_value env "BIGQUERY_DATASET";
                  table_id := environ_value env "BIGQUERY_TABLE" |}) in *.
  destruct (provision_served self w Hf) as (Hd & Ht & Hfs & Ho1 & Ho2).
  cbv zeta in Hd, Ht, Hfs, Ho1, Ho2.
  set (w' := fst (_create_table_if_not_exists self
                    (fst (_create_dataset_if_not_exists self w)))) in *.
  exists w', self.
  assert (Hprov : provisioned self w' = true).
  { pose proof (provisioned_after self (datasets w) (tables w) []) as P.
    cbv zeta in P. unfold provisioned in *. cbn [datasets tables] in P.
    now rewrite Hd, Ht. }
  split; [|split; [exact Hprov|split; [exact Hd|split; [exact Ht|]]]].
  - rewrite (Hinit w Hf). cbv zeta. fold self. fold w'.
    now rewrite Ho1, Ho2.
  - rewrite (Hinit w' Hfs). cbv zeta. fold self. cbn [fst].
    destruct (provision_served self w' Hfs) as (Hd2 & Ht2 & Hfs2 & _).
    cbv zeta in Hd2, Ht2, Hfs2.
    unfold provisioned in Hprov. apply andb_prop in Hprov as [P1 P2].
    rewrite P1 in Hd2. rewrite P2 in Ht2.
    set (w'' := fst (_create_table_if_not_exists self
                       (fst (_create_dataset_if_not_exists self w')))) in *.
    destruct w'' as [d2 t2 f2], w' as [d1 t1 f1]. cbn in *. congruence.
Qed.

Lemma init_provisions_once_witness :
  exists w' self,
    BigQueryClient_init sample_environ (inr tt) empty_warehouse
    = (w', ["✅ Dataset 'todo' is ready"; "✅ Table 'tasks' is ready"],
       inr self) /\
    provisioned self w' = true.
Proof.
  destruct (init_provisions_once sample_environ empty_warehouse
              eq_refl eq_refl) as (w' & self & Hi & Hp & _).
  exists w', self. split; [|exact Hp].
  pose proof (f_equal snd Hi) as Hs. cbv in Hs. injection Hs as <-.
  exact Hi.
Defined.

(* ===================================================================== *)
(** ** More on updates and deletes                                       *)
(* ===================================================================== *)

(** X20. The placeholders of an UPDATE and its bound parameters match one
    to one: the SET clause is one [f = @f] per supplied field in the order
    title, description, status, followed by [updated_at = @updated_at];
    the parameters are [task_id] followed by one parameter per assignment,
    under the same names and in the same order, no name twice. *)
Theorem update_placeholders_bound (task_id : string) (u : TaskUpdate)
  (now : datetime) :
  let uf := update_task_fields u now in
  dict_keys uf
  = (if present (update_title u) then ["title"] else []) ++
    (if present (update_description u) then ["description"] else []) ++
    (if present (update_status u) then ["status"] else []) ++
    ["updated_at"] /\
  split_comma (set_clause_of uf)
  = map (fun k : string => (k ++ " = @" ++ k)%string) (dict_keys uf) /\
  map name (update_task_params task_id uf) = "task_id" :: dict_keys uf /\
  NoDup (map name (update_task_params task_id uf)).
Proof.
  destruct u as [[t|] [d|] [s|]]; cbn;
    (split; [reflexivity|]); (split; [reflexivity|]);
    (split; [reflexivity|]);
    repeat (constructor; [cbn; intuition discriminate|]); constructor.
Qed.

Lemma merged_row_twice (u : TaskUpdate) (now1 now2 : datetime) (r : Row) :
  merged_row u now2 (merged_row u now1 r) = merged_row u now2 r.
Proof. destruct u as [[t|] [d|] [s|]]; reflexivity. Qed.

Lemma update_task_served_table (bc : BigQueryClient) (c : Client)
  (task_id : string) (u : TaskUpdate) (now : datetime) (r : Row)
  (rs : list Row) :
  next_fault c = None ->
  filter (id_is task_id) (table c) = r :: rs ->
  row_ok r = true ->
  next_fault (fst (get_task bc c task_id)) = None ->
  table (fst (update_task bc c task_id u now))
  = map (fun x => if id_is task_id x then merged_row u now x else x) (table c).
Proof.
  intros Hf E Hok Hf1.
  destruct (get_task_first_row bc c task_id r rs Hf E Hok) as (t & _ & _ & Hg).
  destruct (get_task bc c task_id) as [c1 res] eqn:Hgc. cbn [fst snd] in *.
  subst res.
  rewrite (update_task_calls bc c c1 task_id u now t Hgc), Hf1.
  cbn [after_call table].
  destruct (get_task_inr_task bc c c1 task_id t Hgc) as (_ & _ & ->).
  reflexivity.
Qed.

(** X21. Repeating an update changes nothing but [updated_at]: the table
    after the same request has been served twice is the table after it has
    been served once with the later clock reading. *)
Theorem update_twice (bc : BigQueryClient) (c : Client) (task_id : string)
  (u : TaskUpdate) (now1 now2 : datetime) (r : Row) (rs : list Row) :
  next_fault c = None ->
  filter (id_is task_id) (table c) = r :: rs ->
  row_ok r = true ->
  update_ok u = true ->
  next_fault (fst (get_task bc c task_id)) = None ->
  let c2 := fst (update_task bc c task_id u now1) in
  next_fault c2 = None ->
  next_fault (fst (get_task bc c2 task_id)) = None ->
  table (fst (update_task bc c2 task_id u now2))
  = table (fst (update_task bc c task_id u now2)).
Proof.
  intros Hf E Hok Hu Hf1 c2 Hf2 Hf3.
  pose proof (update_task_served_table bc c task_id u now1 r rs Hf E Hok Hf1)
    as Ht2.
  fold c2 in Ht2.
  rewrite (update_task_served_table bc c task_id u now2 r rs Hf E Hok Hf1).
  assert (E2 : filter (id_is task_id) (table c2)
               = merged_row u now1 r :: map (merged_row u now1) rs).
  { rewrite Ht2, filter_map_merged by reflexivity. now rewrite E. }
  rewrite (update_task_served_table bc c2 task_id u now2 _ _ Hf2 E2
             (merged_row_ok u now1 r Hu Hok) Hf3).
  rewrite Ht2, map_map. apply map_ext. intros x.
  destruct (id_is task_id x) eqn:Ex.
  - assert (Hm : id_is task_id (merged_row u now1 x) = true) by exact Ex.
    rewrite Hm. apply merged_row_twice.
  - now rewrite Ex.
Qed.

Lemma update_twice_witness :
  table (fst (update_task sample_client
                (fst (update_task sample_client sample_store "b"
                        {| update_title := Some "x"; update_description := None;
                           update_status := None |} 40))
                "b"
                {| update_title := Some "x"; update_description := None;
                   update_status := None |} 50))
  = table (fst (update_task sample_client sample_store "b"
                  {| update_title := Some "x"; update_description := None;
                     update_status := None |} 50)).
Proof.
  apply (update_twice sample_client sample_store "b"
           {| update_title := Some "x"; update_description := None;
              update_status := None |} 40 50 (sample_row "b" 20) []);
    reflexivity.
Defined.

(** X22. A delete of the id a create has just returned undoes the create:
    when no stored row carried the id before and the calls are served, the
    table is the one from before the create. *)
Theorem create_then_delete (bc : BigQueryClient) (c c1 : Client)
  (task : TaskCreate) (uuid4 : string) (now : datetime) (t : Task) :
  create_task bc c task uuid4 now = (c1, inr t) ->
  filter (id_is uuid4) (table c) = [] ->
  next_fault c1 = None ->
  next_fault (fst (get_task bc c1 (id t))) = None ->
  snd (delete_task bc c1 (id t))
  = inr [("message", VStr "Task deleted successfully")] /\
  table (fst (delete_task bc c1 (id t))) = table c.
Proof.
  intros Hc Hfresh Hf Hf1.
  pose proof Hc as Hc'.
  apply create_task_inr_inv in Hc' as (_ & Hok & Ht & Hc1).
  assert (Hid : id t = uuid4) by now subst t.
  assert (Htab : table c1 = table c ++ [row_of_task t]) by now subst c1.
  assert (Hm : id_is uuid4 (row_of_task t) = true).
  { unfold id_is. cbn. rewrite Hid. apply String.eqb_refl. }
  assert (Hg : get_task bc c1 (id t)
               = (fst (get_task bc c1 (id t)), inr (read_back t))).
  { rewrite (get_task_served bc c1 (id t) Hf). cbn [fst]. f_equal.
    rewrite Htab, filter_app, Hid, Hfresh. cbn [filter app]. rewrite Hm.
    rewrite get_task_body_cons.
    rewrite (row_to_task_of_task t) by (subst t; now apply created_ok).
    reflexivity. }
  rewrite (delete_task_after_get bc c1 _ (id t) (read_back t) Hg), Hf1.
  cbn [fst snd after_call table]. split; [reflexivity|].
  rewrite get_task_table, Htab, filter_app, Hid. cbn [filter].
  rewrite Hm. cbn [negb]. rewrite app_nil_r.
  clear - Hfresh. induction (table c) as [|x l IH]; [reflexivity|].
  cbn in *. destruct (id_is uuid4 x); [discriminate|].
  cbn. f_equal. now apply IH.
Qed.

Lemma create_then_delete_witness :
  table (fst (delete_task sample_client
                (fst (create_task sample_client sample_store
                        {| create_title := "buy milk";
                           create_description := None;
                           create_status := PENDING |} "id-1" 40))
                "id-1"))
  = table sample_store.
Proof.
  refine (proj2
    (create_then_delete sample_client sample_store
       (fst (create_task sample_client sample_store
               {| create_title := "buy milk"; create_description := None;
                  create_status := PENDING |} "id-1" 40))
       {| create_title := "buy milk"; create_description := None;
          create_status := PENDING |} "id-1" 40
       {| id := "id-1"; title := "buy milk"; description := None;
          status := PENDING; created_at := naive 40;
          updated_at := naive 40 |}
       _ _ _ _)); reflexivity.
Defined.

(* ===================================================================== *)
(** ** The routes keep the table within the model                        *)
(* ===================================================================== *)

(** X23. Whatever the bodies, the ids and the service do, the routes
    write only rows that satisfy the [Task] model: from a table whose rows
    all do, POST, PUT and DELETE lead to such a table again, and GET
    leaves the table as it is. *)
Theorem routes_keep_rows_valid (bc : BigQueryClient) (c : Client) :
  forallb row_ok (table c) = true ->
  (forall b uuid4 now,
     forallb row_ok (table (fst (POST_tasks bc c b uuid4 now))) = true) /\
  (forall task_id b now,
     forallb row_ok (table (fst (PUT_tasks bc c task_id b now))) = true) /\
  (forall task_id,
     forallb row_ok (table (fst (delete_task bc c task_id))) = true) /\
  (forall task_id, table (fst (get_task bc c task_id)) = table c) /\
  table (fst (list_tasks bc c)) = table c.
Proof.
  intros Hok.
  destruct (handlers_keep_rows_ok bc c Hok) as (Hc & Hu & Hd & Hg & Hl).
  split; [|split; [|split; [|split]]]; trivial.
  - intros b uuid4 now. unfold POST_tasks.
    destruct (TaskCreate_validate b) as [e|task] eqn:Ev; [exact Hok|].
    apply Hc. now apply TaskCreate_validate_fields in Ev.
  - intros task_id b now. unfold PUT_tasks.
    destruct (TaskUpdate_validate b) as [e|u] eqn:Ev; [exact Hok|].
    apply Hu. now apply TaskUpdate_validate_ok in Ev.
Qed.

Lemma routes_keep_rows_valid_witness :
  forallb row_ok
    (table (fst (PUT_tasks sample_client sample_store "a"
                   (title_only "call the bank") 50))) = true.
Proof.
  refine (proj1 (proj2
    (routes_keep_rows_valid sample_client sample_store _)) "a" _ 50%Z).
  reflexivity.
Defined.
